(** * Domain router ([api/serve-domain.js]): shallow embedding and properties

    The handler maps the host of an inbound request to
    [<cwd>/<host>/index.html] and serves it, with a fallback to the root
    landing page and 404 / 403 / 500 responses.  The source file holds two
    variants of the handler; both are embedded here (modules [V1] and [V2]),
    above a common layer for JavaScript strings, regular expressions, Node's
    POSIX [path] functions, the filesystem and the response object. *)

From Stdlib Require Import Ascii String Bool List Lia.
From stdpp Require Import base strings gmap.

(** ** JavaScript strings

    A string is a sequence of code units.  Header values reach the handler
    decoded as latin-1, one code unit per byte, which is what [ascii] holds;
    the non-ASCII text of the literals of the source is kept as the bytes the
    source file has for it. *)

Definition dquote : string := String "034"%char EmptyString.
Definition backslash : string := String "092"%char EmptyString.

(** [s.startsWith(p)] *)
Fixpoint startsWith (s p : string) {struct p} : bool :=
  match p with
  | EmptyString => true
  | String a p' =>
      match s with
      | EmptyString => false
      | String b s' => Ascii.eqb a b && startsWith s' p'
      end
  end.

(** [s.includes(sub)] *)
Fixpoint includes (s sub : string) : bool :=
  startsWith s sub ||
  match s with
  | EmptyString => false
  | String _ s' => includes s' sub
  end.

(** [s.split(sep)] for a one-character separator: never the empty list. *)
Fixpoint split (sep : ascii) (s : string) : list string :=
  match s with
  | EmptyString => [EmptyString]
  | String c s' =>
      if Ascii.eqb c sep then EmptyString :: split sep s'
      else match split sep s' with
           | [] => [String c EmptyString]
           | seg :: segs => String c seg :: segs
           end
  end.

(** [s.split(sep)[0]] *)
Definition split_head (sep : ascii) (s : string) : string :=
  match split sep s with
  | [] => EmptyString
  | seg :: _ => seg
  end.

(** [s.slice(n)] *)
Fixpoint drop_chars (n : nat) (s : string) : string :=
  match n, s with
  | O, _ => s
  | S n', String _ s' => drop_chars n' s'
  | S _, EmptyString => EmptyString
  end.

(** [s.slice(0, n)] *)
Fixpoint take_chars (n : nat) (s : string) : string :=
  match n, s with
  | O, _ => EmptyString
  | S n', String c s' => String c (take_chars n' s')
  | S _, EmptyString => EmptyString
  end.

(** [s.replace(pat, '')] for a string pattern: the first occurrence of the
    literal text [pat] is removed, wherever it is. *)
Fixpoint replace_first_empty (pat s : string) : string :=
  if startsWith s pat then drop_chars (String.length pat) s
  else match s with
       | EmptyString => EmptyString
       | String c s' => String c (replace_first_empty pat s')
       end.

Fixpoint string_forall (p : ascii -> bool) (s : string) : bool :=
  match s with
  | EmptyString => true
  | String c s' => p c && string_forall p s'
  end.

Fixpoint last_char (s : string) : option ascii :=
  match s with
  | EmptyString => None
  | String c EmptyString => Some c
  | String _ s' => last_char s'
  end.

(** [sep]-joined segments: [segs.join(sep)] *)
Fixpoint join_with (sep : string) (segs : list string) : string :=
  match segs with
  | [] => EmptyString
  | [seg] => seg
  | seg :: rest => seg +:+ sep +:+ join_with sep rest
  end.

(** Truthiness of a string, and [a || b] on possibly undefined strings. *)
Definition truthy (s : string) : bool := negb (String.eqb s EmptyString).

Definition js_or (a : option string) (b : string) : string :=
  match a with
  | Some s => if truthy s then s else b
  | None => b
  end.

(** ** Regular expressions

    The fragment of JavaScript regular expressions the handler uses:
    character classes of characters and ranges, concatenation, [*], [+] and
    [{n,}].  Both patterns of the source are anchored with [^] and [$] and
    carry no [m] flag, so [test] is a match of the whole string. *)

Inductive cset_item : Type :=
| CChar (c : ascii)
| CRange (lo hi : ascii).

Inductive regex : Type :=
| RVoid
| REps
| RSet (cs : list cset_item)
| RCat (r1 r2 : regex)
| RAlt (r1 r2 : regex)
| RStar (r : regex).

Definition RPlus (r : regex) : regex := RCat r (RStar r).

(** [r{n,}] *)
Fixpoint RAtLeast (n : nat) (r : regex) : regex :=
  match n with
  | O => RStar r
  | S n' => RCat r (RAtLeast n' r)
  end.

(** [c.charCodeAt(0)] *)
Definition charCode (c : ascii) : N := N_of_ascii c.

Definition in_item (c : ascii) (it : cset_item) : bool :=
  match it with
  | CChar a => Ascii.eqb a c
  | CRange lo hi => (charCode lo <=? charCode c)%N && (charCode c <=? charCode hi)%N
  end.

Definition ascii_upper (c : ascii) : ascii :=
  if (charCode "a" <=? charCode c)%N && (charCode c <=? charCode "z")%N
  then ascii_of_N (charCode c - 32) else c.

Definition ascii_lower (c : ascii) : ascii :=
  if (charCode "A" <=? charCode c)%N && (charCode c <=? charCode "Z")%N
  then ascii_of_N (charCode c + 32) else c.

(** Membership in a class.  With the [i] flag a character matches when it or
    one of its two case variants is in the class: the canonical form of a
    code unit below 256 is an ASCII letter only for the ASCII letters. *)
Definition in_cset (ignoreCase : bool) (cs : list cset_item) (c : ascii) : bool :=
  existsb (in_item c) cs ||
  (ignoreCase && (existsb (in_item (ascii_lower c)) cs
                  || existsb (in_item (ascii_upper c)) cs)).

Fixpoint nullable (r : regex) : bool :=
  match r with
  | RVoid => false
  | REps => true
  | RSet _ => false
  | RCat r1 r2 => nullable r1 && nullable r2
  | RAlt r1 r2 => nullable r1 || nullable r2
  | RStar _ => true
  end.

Fixpoint deriv (ic : bool) (c : ascii) (r : regex) : regex :=
  match r with
  | RVoid => RVoid
  | REps => RVoid
  | RSet cs => if in_cset ic cs c then REps else RVoid
  | RCat r1 r2 =>
      let left := RCat (deriv ic c r1) r2 in
      if nullable r1 then RAlt left (deriv ic c r2) else left
  | RAlt r1 r2 => RAlt (deriv ic c r1) (deriv ic c r2)
  | RStar r1 => RCat (deriv ic c r1) (RStar r1)
  end.

(** [/^r$/.test(s)], and [/^r$/i.test(s)] when [ic] is set. *)
Fixpoint regex_test (ic : bool) (r : regex) (s : string) : bool :=
  match s with
  | EmptyString => nullable r
  | String c s' => regex_test ic (deriv ic c r) s'
  end.

(** [s.replace(/^r/, '')] (with the [i] flag when [ic] is set) for a pattern
    [r] all of whose matches have [n] characters. *)
Definition replace_prefix (ic : bool) (r : regex) (n : nat) (s : string) : string :=
  if regex_test ic r (take_chars n s) then drop_chars n s else s.

(** The declarative reading of a pattern, against which [regex_test] is
    justified below. *)
Inductive Matches (ic : bool) : regex -> string -> Prop :=
| MEps : Matches ic REps EmptyString
| MSet cs c : in_cset ic cs c = true -> Matches ic (RSet cs) (String c EmptyString)
| MCat r1 r2 s1 s2 :
    Matches ic r1 s1 -> Matches ic r2 s2 -> Matches ic (RCat r1 r2) (s1 +:+ s2)
| MAltL r1 r2 s : Matches ic r1 s -> Matches ic (RAlt r1 r2) s
| MAltR r1 r2 s : Matches ic r2 s -> Matches ic (RAlt r1 r2) s
| MStarNil r : Matches ic (RStar r) EmptyString
| MStarCons r s1 s2 :
    Matches ic r s1 -> Matches ic (RStar r) s2 -> Matches ic (RStar r) (s1 +:+ s2).

(** ** Node's [path] functions (POSIX flavour)

    [join] and [normalize] are library code of the Node runtime, not code of
    the repository; they are embedded after their documented behaviour on a
    POSIX host, which is where the function is deployed: the path is cut at
    [/], empty and [.] segments are dropped, a [..] segment removes the
    segment before it (and is dropped at the root of an absolute path), a
    trailing separator is kept. *)

Definition slash : ascii := "/"%char.

Definition is_dot (seg : string) : bool := String.eqb seg ".".
Definition is_dotdot (seg : string) : bool := String.eqb seg "..".

(** One segment against the stack of kept segments, last kept segment first. *)
Definition norm_step (allowAboveRoot : bool) (stack : list string) (seg : string)
  : list string :=
  if String.eqb seg EmptyString || is_dot seg then stack
  else if is_dotdot seg then
    match stack with
    | top :: below =>
        if is_dotdot top
        then (if allowAboveRoot then seg :: stack else stack)
        else below
    | [] => if allowAboveRoot then [seg] else []
    end
  else seg :: stack.

Definition norm_stack (allowAboveRoot : bool) (p : string) : list string :=
  fold_left (norm_step allowAboveRoot) (split slash p) [].

Definition normalizeString (p : string) (allowAboveRoot : bool) : string :=
  join_with "/" (rev (norm_stack allowAboveRoot p)).

Definition isAbsolute (p : string) : bool := startsWith p "/".

Definition ends_with_slash (p : string) : bool :=
  match last_char p with
  | Some c => Ascii.eqb c slash
  | None => false
  end.

Definition normalize (p : string) : string :=
  if String.eqb p EmptyString then "."
  else
    let absolute := isAbsolute p in
    let trailingSeparator := ends_with_slash p in
    let body := normalizeString p (negb absolute) in
    if String.eqb body EmptyString then
      (if absolute then "/" else if trailingSeparator then "./" else ".")
    else
      let body' := if trailingSeparator then body +:+ "/" else body in
      if absolute then "/" +:+ body' else body'.

(** [join(...args)]: the non-empty arguments, separated by [/], normalized. *)
Definition join (args : list string) : string :=
  match List.filter truthy args with
  | [] => "."
  | parts => normalize (join_with "/" parts)
  end.

(** A segment that [normalize] keeps as it is: not empty, without separator,
    neither [.] nor [..]. *)
Definition no_slash (s : string) : bool :=
  string_forall (fun c => negb (Ascii.eqb c slash)) s.

Definition plain_segment (seg : string) : bool :=
  truthy seg && no_slash seg && negb (is_dot seg) && negb (is_dotdot seg).

(** What [process.cwd()] returns: an absolute path in normal form. *)
Definition well_formed_cwd (cwd : string) : bool :=
  isAbsolute cwd && String.eqb (normalize cwd) cwd.

(** ** The world of one invocation

    [fs.existsSync] never throws; [fs.statSync], [fs.readFileSync] and
    [process.cwd] return or throw an error object, of which the handler
    reads [code] only.  The three filesystem functions are independent
    oracles, so that a file may vanish between the existence check and the
    read.  [now] is what [new Date().toISOString()] gives. *)

Record JsError : Type := { err_code : option string }.

Record Stats : Type := { isFile : bool }.

Inductive Outcome (A : Type) : Type :=
| Returned (a : A)
| Thrown (e : JsError).
Arguments Returned {A} a.
Arguments Thrown {A} e.

Record World : Type := {
  w_cwd : Outcome string;
  fs_existsSync : string -> bool;
  fs_statSync : string -> Outcome Stats;
  fs_readFileSync : string -> Outcome string;
  now : string
}.

Inductive FsOp : Type :=
| OpExists (p : string)
| OpStat (p : string)
| OpRead (p : string).

(** ** Request and response objects *)

Record Request : Type := {
  headers : gmap string string;
  url : string
}.

(** The argument of [res.json] in [sendError]. *)
Record ErrorJson : Type := {
  j_error : bool;
  j_code : nat;
  j_message : string;
  j_timestamp : string
}.

Inductive Body : Type :=
| BodyText (s : string)
| BodyJson (j : ErrorJson).

(** The response object: [res.req] is the request the runtime attached to it
    (if any), the rest is what the handler has set so far. *)
Record Res : Type := {
  res_req : option Request;
  statusCode : nat;
  res_headers : gmap string string;
  sent : option Body
}.

(** A response object as the runtime hands it to the handler for [req]. *)
Definition fresh_res (req : Request) : Res :=
  {| res_req := Some req; statusCode := 200; res_headers := ∅; sent := None |}.

(** ** Effects

    A computation reads the world, updates the response object and appends
    to the log of filesystem calls; it returns or throws.  State changes made
    before a throw stay, as in JavaScript. *)

Record State : Type := {
  st_res : Res;
  st_trace : list FsOp
}.

Definition Eff (A : Type) : Type := World -> State -> Outcome A * State.

Definition ret {A} (a : A) : Eff A := fun _ st => (Returned a, st).

Definition throw {A} (e : JsError) : Eff A := fun _ st => (Thrown e, st).

Definition bind {A B} (m : Eff A) (k : A -> Eff B) : Eff B :=
  fun w st =>
    match m w st with
    | (Returned a, st') => k a w st'
    | (Thrown e, st') => (Thrown e, st')
    end.

(** [try { m } catch (e) { h e }] *)
Definition try_catch {A} (m : Eff A) (h : JsError -> Eff A) : Eff A :=
  fun w st =>
    match m w st with
    | (Returned a, st') => (Returned a, st')
    | (Thrown e, st') => h e w st'
    end.

Notation "'do' x <- m ; k" := (bind m (fun x => k))
  (at level 10, x name, m at level 100, k at level 200).

Definition log_op (op : FsOp) : Eff unit :=
  fun _ st => (Returned tt, {| st_res := st_res st; st_trace := st_trace st ++ [op] |}).

Definition process_cwd : Eff string := fun w st => (w_cwd w, st).

Definition existsSync (p : string) : Eff bool :=
  do _ <- log_op (OpExists p); fun w st => (Returned (fs_existsSync w p), st).

Definition statSync (p : string) : Eff Stats :=
  do _ <- log_op (OpStat p); fun w st => (fs_statSync w p, st).

Definition readFileSync (p : string) : Eff string :=
  do _ <- log_op (OpRead p); fun w st => (fs_readFileSync w p, st).

Definition date_now : Eff string := fun w st => (Returned (now w), st).

Definition get_res : Eff Res := fun _ st => (Returned (st_res st), st).

Definition modify_res (f : Res -> Res) : Eff unit :=
  fun _ st => (Returned tt, {| st_res := f (st_res st); st_trace := st_trace st |}).

(** [res.setHeader(name, value)] *)
Definition setHeader (name value : string) : Eff unit :=
  modify_res (fun r =>
    {| res_req := res_req r; statusCode := statusCode r;
       res_headers := <[name := value]> (res_headers r); sent := sent r |}).

(** [res.status(code)] *)
Definition status (c : nat) : Eff unit :=
  modify_res (fun r =>
    {| res_req := res_req r; statusCode := c;
       res_headers := res_headers r; sent := sent r |}).

(** [res.send(text)] *)
Definition send (text : string) : Eff unit :=
  modify_res (fun r =>
    {| res_req := res_req r; statusCode := statusCode r;
       res_headers := res_headers r; sent := Some (BodyText text) |}).

(** [res.json(obj)] *)
Definition json (j : ErrorJson) : Eff unit :=
  modify_res (fun r =>
    {| res_req := res_req r; statusCode := statusCode r;
       res_headers := res_headers r; sent := Some (BodyJson j) |}).

(** Running a handler on a response object, from an empty log. *)
Definition run {A} (m : Eff A) (w : World) (res : Res) : Outcome A * State :=
  m w {| st_res := res; st_trace := [] |}.

(** The text of the 404 page of [send404], line by line as in the template
    literal of the source (which starts with a line break); [message] and
    [domain] are its two interpolations. *)
Definition nl : string := String "010"%char EmptyString.

Definition notFoundHtml (message domain : string) : string :=
  join_with nl
    [ EmptyString;
      "<!DOCTYPE html>";
      "<html lang=" +:+ dquote +:+ "zh-CN" +:+ dquote +:+ ">";
      "<head>";
      "    <meta charset=" +:+ dquote +:+ "UTF-8" +:+ dquote +:+ ">";
      "    <meta name=" +:+ dquote +:+ "viewport" +:+ dquote +:+ " content=" +:+ dquote +:+ "width=device-width, initial-scale=1.0" +:+ dquote +:+ ">";
      "    <title>404 - 页面未找到</title>";
      "    <style>";
      "        body { font-family: -apple-system, BlinkMacSystemFont, 'Segoe UI', Roboto, sans-serif; ";
      "               background: linear-gradient(135deg, #667eea 0%, #764ba2 100%);";
      "               color: white; text-align: center; padding: 60px 20px; min-height: 100vh; }";
      "        .container { max-width: 600px; margin: 0 auto; }";
      "        h1 { font-size: 120px; margin: 0; opacity: 0.9; }";
      "        h2 { font-size: 28px; margin: 20px 0; }";
      "        p { font-size: 18px; margin-bottom: 30px; opacity: 0.8; }";
      "        .btn { display: inline-block; background: white; color: #764ba2; ";
      "               padding: 12px 30px; border-radius: 50px; text-decoration: none; ";
      "               font-weight: bold; margin: 10px; transition: transform 0.3s; }";
      "        .btn:hover { transform: translateY(-3px); }";
      "        .domain { background: rgba(255,255,255,0.1); padding: 10px 20px; ";
      "                  border-radius: 10px; margin: 20px 0; font-family: monospace; }";
      "    </style>";
      "</head>";
      "<body>";
      "    <div class=" +:+ dquote +:+ "container" +:+ dquote +:+ ">";
      "        <h1>404</h1>";
      "        <h2>" +:+ message +:+ "</h2>";
      "        <p>您访问的域名页面暂时无法找到。</p>";
      "        <div class=" +:+ dquote +:+ "domain" +:+ dquote +:+ ">" +:+ domain +:+ "</div>";
      "        <div>";
      "            <a href=" +:+ dquote +:+ "/" +:+ dquote +:+ " class=" +:+ dquote +:+ "btn" +:+ dquote +:+ ">返回首页</a>";
      "            <a href=" +:+ dquote +:+ "https://vercel.com" +:+ dquote +:+ " class=" +:+ dquote +:+ "btn" +:+ dquote +:+ " target=" +:+ dquote +:+ "_blank" +:+ dquote +:+ ">技术支持</a>";
      "        </div>";
      "    </div>";
      "</body>";
      "</html>" ].

(** [error.code === c] *)
Definition code_is (error : JsError) (c : string) : bool :=
  match err_code error with
  | Some c' => String.eqb c' c
  | None => false
  end.

(** ** First variant of the handler *)

Module V1.

(** [/^www\./i] and [/^[a-z0-9][a-z0-9.-]*\.[a-z]{2,}$/i] *)
Definition www_pattern : regex :=
  RCat (RSet [CChar "w"]) (RCat (RSet [CChar "w"])
    (RCat (RSet [CChar "w"]) (RSet [CChar "."]))).

Definition host_pattern : regex :=
  RCat (RSet [CRange "a" "z"; CRange "0" "9"])
    (RCat (RStar (RSet [CRange "a" "z"; CRange "0" "9"; CChar "."; CChar "-"]))
      (RCat (RSet [CChar "."])
        (RAtLeast 2 (RSet [CRange "a" "z"])))).

Definition rawHost (req : Request) : string :=
  js_or (headers req !! "x-forwarded-host") (js_or (headers req !! "host") "").

Definition host (req : Request) : string :=
  replace_prefix true www_pattern 4 (split_head ":" (rawHost req)).

(** The two tests of the validation step. *)
Definition host_rejected (host : string) : bool :=
  negb (truthy host) || negb (regex_test true host_pattern host).

Definition host_suspicious (host : string) : bool :=
  includes host ".." || includes host "/" || includes host backslash.

Definition siteDir (cwd host : string) : string := join [cwd; host].
Definition indexPath (cwd host : string) : string := join [siteDir cwd host; "index.html"].
Definition normalizedPath (cwd host : string) : string := normalize (indexPath cwd host).
Definition rootIndexPath (cwd : string) : string := join [cwd; "index.html"].

Definition sendError (statusCode : nat) (message : string) : Eff unit :=
  do _ <- setHeader "Cache-Control" "no-cache";
  do _ <- status statusCode;
  do timestamp <- date_now;
  json {| j_error := true; j_code := statusCode;
          j_message := message; j_timestamp := timestamp |}.

(** [res.req?.headers?.host || '未知域名'] *)
Definition domain_line (res : Res) : string :=
  js_or (res_req res ≫= λ r, headers r !! "host") "未知域名".

Definition send404 (message : string) : Eff unit :=
  do res <- get_res;
  let page := notFoundHtml message (domain_line res) in
  do _ <- setHeader "Cache-Control" "no-cache, no-store, must-revalidate";
  do _ <- setHeader "Content-Type" "text/html; charset=utf-8";
  do _ <- status 404;
  send page.

Definition sendHtml (filePath : string) (statusCode : nat) : Eff unit :=
  try_catch
    (do content <- readFileSync filePath;
     do _ <- setHeader "Cache-Control"
               "public, max-age=3600, stale-while-revalidate=7200";
     do _ <- setHeader "Content-Type" "text/html; charset=utf-8";
     do _ <- setHeader "X-Powered-By" "Vercel-Domain-Router/1.0";
     do _ <- status statusCode;
     send content)
    (fun readError => sendError 500 "无法读取页面内容").

Definition msg_invalid (host : string) : string := "无效域名: " +:+ host.
Definition msg_no_site (host : string) : string :=
  "域名 " +:+ dquote +:+ host +:+ dquote +:+ " 的页面尚未创建".

(** The [try] block of the handler. *)
Definition serve_site (req : Request) (host : string) : Eff unit :=
  do cwd <- process_cwd;
  let siteDir := join [cwd; host] in
  let indexPath := join [siteDir; "index.html"] in
  let normalizedPath := normalize indexPath in
  do cwd' <- process_cwd;
  if negb (startsWith normalizedPath cwd') then send404 "非法路径访问"
  else
    do present <- existsSync normalizedPath;
    if negb present then
      do cwd'' <- process_cwd;
      let rootIndexPath := join [cwd''; "index.html"] in
      do rootPresent <- existsSync rootIndexPath;
      if rootPresent && String.eqb (url req) "/"
      then sendHtml rootIndexPath 200
      else send404 (msg_no_site host)
    else
      do stats <- statSync normalizedPath;
      if negb (isFile stats) then send404 "资源类型错误"
      else sendHtml normalizedPath 200.

(** The [catch] block of the handler. *)
Definition on_error (error : JsError) : Eff unit :=
  if code_is error "ENOENT" then send404 "请求的资源不存在"
  else if code_is error "EACCES" then sendError 403 "没有访问权限"
  else sendError 500 "服务器内部错误".

Definition handler (req : Request) : Eff unit :=
  let host := host req in
  if negb (truthy host) || negb (regex_test true host_pattern host) then
    send404 (msg_invalid host)
  else if includes host ".." || includes host "/" || includes host backslash then
    send404 "非法请求"
  else
    try_catch (serve_site req host) on_error.

(** The response object as the three senders leave it. *)
Definition res_404 (message : string) (r : Res) : Res :=
  {| res_req := res_req r; statusCode := 404;
     res_headers :=
       <["Content-Type" := "text/html; charset=utf-8"]>
         (<["Cache-Control" := "no-cache, no-store, must-revalidate"]> (res_headers r));
     sent := Some (BodyText (notFoundHtml message (domain_line r))) |}.

Definition res_error (statusCode : nat) (message timestamp : string) (r : Res) : Res :=
  {| res_req := res_req r; statusCode := statusCode;
     res_headers := <["Cache-Control" := "no-cache"]> (res_headers r);
     sent := Some (BodyJson {| j_error := true; j_code := statusCode;
                               j_message := message; j_timestamp := timestamp |}) |}.

Definition res_html (statusCode : nat) (content : string) (r : Res) : Res :=
  {| res_req := res_req r; statusCode := statusCode;
     res_headers :=
       <["X-Powered-By" := "Vercel-Domain-Router/1.0"]>
         (<["Content-Type" := "text/html; charset=utf-8"]>
            (<["Cache-Control" := "public, max-age=3600, stale-while-revalidate=7200"]>
               (res_headers r)));
     sent := Some (BodyText content) |}.

(** The last call a run of the handler makes on the response object, and
    the calls it can end with once the host has passed validation. *)
Inductive Sender : Type :=
| Send404 (message : string)
| SendHtml (statusCode : nat) (content : string)
| SendError (statusCode : nat) (message : string).

Definition apply_sender (k : Sender) (timestamp : string) (r : Res) : Res :=
  match k with
  | Send404 message => res_404 message r
  | SendHtml statusCode content => res_html statusCode content r
  | SendError statusCode message => res_error statusCode message timestamp r
  end.

(** The response the [catch] block gives for [error]. *)
Definition caught (error : JsError) : Sender :=
  if code_is error "ENOENT" then Send404 "请求的资源不存在"
  else if code_is error "EACCES" then SendError 403 "没有访问权限"
  else SendError 500 "服务器内部错误".

Inductive validated_outcome (host : string) : Sender -> Prop :=
| site_page_sent content : validated_outcome host (SendHtml 200 content)
| no_site : validated_outcome host (Send404 (msg_no_site host))
| illegal_path : validated_outcome host (Send404 "非法路径访问")
| wrong_type : validated_outcome host (Send404 "资源类型错误")
| not_found : validated_outcome host (Send404 "请求的资源不存在")
| forbidden : validated_outcome host (SendError 403 "没有访问权限")
| internal_error : validated_outcome host (SendError 500 "服务器内部错误")
| unreadable : validated_outcome host (SendError 500 "无法读取页面内容").

End V1.

(** ** Second variant of the handler *)

Module V2.

(** [/^[a-z0-9.-]+\.[a-z]{2,}$/i] *)
Definition host_pattern : regex :=
  RCat (RPlus (RSet [CRange "a" "z"; CRange "0" "9"; CChar "."; CChar "-"]))
    (RCat (RSet [CChar "."])
      (RAtLeast 2 (RSet [CRange "a" "z"]))).

(** The first argument of [replace] is the string ['^www\.'], five
    characters of literal text, not a regular expression. *)
Definition host (req : Request) : string :=
  replace_first_empty "^www."
    (js_or (headers req !! "x-forwarded-host") (js_or (headers req !! "host") "")).

Definition filePath (cwd host : string) : string := join [cwd; host; "index.html"].

Definition msg_no_site (host : string) : string :=
  "抱歉，域名 " +:+ dquote +:+ host +:+ dquote +:+ " 的展示页面尚未创建。".

Definition handler (req : Request) : Eff unit :=
  let host := host req in
  if negb (truthy host) || negb (regex_test true host_pattern host) then
    do _ <- status 400;
    send "无效的域名请求。"
  else
    do cwd <- process_cwd;
    let filePath := join [cwd; host; "index.html"] in
    do present <- existsSync filePath;
    if present then
      try_catch
        (do htmlContent <- readFileSync filePath;
         do _ <- setHeader "Content-Type" "text/html; charset=utf-8";
         do _ <- status 200;
         send htmlContent)
        (fun error =>
           do _ <- status 500;
           send "服务器内部错误，无法读取页面。")
    else
      do _ <- status 404;
      send (msg_no_site host).

(** The response object after [res.status(c).send(text)]. *)
Definition res_text (c : nat) (text : string) (r : Res) : Res :=
  {| res_req := res_req r; statusCode := c;
     res_headers := res_headers r; sent := Some (BodyText text) |}.

End V2.

(** ** Sample requests and deployments

    Concrete inputs on which the handlers are evaluated below. *)

Definition request_for (hostHeader path : string) : Request :=
  {| headers := {[ "host" := hostHeader ]}; url := path |}.

Definition forwarded_request (forwarded hostHeader path : string) : Request :=
  {| headers := <["x-forwarded-host" := forwarded]> {[ "host" := hostHeader ]};
     url := path |}.

Definition enoent : JsError := {| err_code := Some "ENOENT" |}.
Definition eacces : JsError := {| err_code := Some "EACCES" |}.
Definition eisdir : JsError := {| err_code := Some "EISDIR" |}.

(** A deployment at [/var/task] whose regular files are [files], given as
    pairs of path and content; nothing else exists. *)
Definition deployment (files : list (string * string)) : World :=
  {| w_cwd := Returned "/var/task";
     fs_existsSync := fun p => existsb (fun f => String.eqb (fst f) p) files;
     fs_statSync := fun p =>
       if existsb (fun f => String.eqb (fst f) p) files
       then Returned {| isFile := true |} else Thrown enoent;
     fs_readFileSync := fun p =>
       match find (fun f => String.eqb (fst f) p) files with
       | Some f => Returned (snd f)
       | None => Thrown enoent
       end;
     now := "2024-01-01T00:00:00.000Z" |}.

Definition site_page : string := "<!DOCTYPE html><title>site</title>".
Definition landing_page : string := "<!DOCTYPE html><title>landing</title>".

(** A site for [example.com], and one whose directory is named [a..com]. *)
Definition one_site : World :=
  deployment [("/var/task/example.com/index.html", site_page)].

Definition dotted_site : World :=
  deployment [("/var/task/a..com/index.html", site_page)].

(** No site, only the landing page at the root. *)
Definition landing_only : World :=
  deployment [("/var/task/index.html", landing_page)].

(** The site of [example.com] is there but [statSync] is refused; it is there
    but vanishes before the read; the working directory is gone. *)
Definition locked_site : World :=
  {| w_cwd := Returned "/var/task";
     fs_existsSync := fun p => String.eqb p "/var/task/example.com/index.html";
     fs_statSync := fun _ => Thrown eacces;
     fs_readFileSync := fun _ => Thrown eacces;
     now := "2024-01-01T00:00:00.000Z" |}.

Definition vanishing_site : World :=
  {| w_cwd := Returned "/var/task";
     fs_existsSync := fun p => String.eqb p "/var/task/example.com/index.html";
     fs_statSync := fun _ => Returned {| isFile := true |};
     fs_readFileSync := fun _ => Thrown enoent;
     now := "2024-01-01T00:00:00.000Z" |}.

Definition no_cwd : World :=
  {| w_cwd := Thrown enoent;
     fs_existsSync := fun _ => false;
     fs_statSync := fun _ => Thrown enoent;
     fs_readFileSync := fun _ => Thrown enoent;
     now := "2024-01-01T00:00:00.000Z" |}.

(** [<cwd>/example.com/index.html] is a directory; and a deployment without
    site whose [<cwd>/index.html] is a directory. *)
Definition directory_site : World :=
  {| w_cwd := Returned "/var/task";
     fs_existsSync := fun p => String.eqb p "/var/task/example.com/index.html";
     fs_statSync := fun _ => Returned {| isFile := false |};
     fs_readFileSync := fun _ => Thrown eisdir;
     now := "2024-01-01T00:00:00.000Z" |}.

Definition root_is_directory : World :=
  {| w_cwd := Returned "/var/task";
     fs_existsSync := fun p => String.eqb p "/var/task/index.html";
     fs_statSync := fun _ => Returned {| isFile := false |};
     fs_readFileSync := fun _ => Thrown eisdir;
     now := "2024-01-01T00:00:00.000Z" |}.

(** No site; [<cwd>/index.html] is a regular file that may not be read. *)
Definition unreadable_landing : World :=
  {| w_cwd := Returned "/var/task";
     fs_existsSync := fun p => String.eqb p "/var/task/index.html";
     fs_statSync := fun _ => Returned {| isFile := true |};
     fs_readFileSync := fun _ => Thrown eacces;
     now := "2024-01-01T00:00:00.000Z" |}.

(** The path a logged filesystem call was made on. *)
Definition op_path (op : FsOp) : string :=
  match op with
  | OpExists p => p
  | OpStat p => p
  | OpRead p => p
  end.

(** * Properties *)

#[local] Arguments String.append !_ _ /.
#[local] Arguments notFoundHtml : simpl never.

(** A fact about every character, by the 256 cases. *)
Ltac by_cases_on_char :=
  intros [[] [] [] [] [] [] [] []]; vm_compute; intros; congruence.

(** ** The library functions on the examples of their documentation *)

Example normalize_doc_example :
  normalize "/foo/bar//baz/asdf/quux/.." = "/foo/bar/baz/asdf".
Proof. reflexivity. Qed.

Example join_doc_example :
  join ["/foo"; "bar"; "baz/asdf"; "quux"; ".."] = "/foo/bar/baz/asdf".
Proof. reflexivity. Qed.

Example normalize_corner_cases :
  normalize "" = "." /\ normalize "./" = "./" /\ normalize "/.." = "/" /\
  normalize "a/../../b" = "../b" /\ normalize "/a/./b/" = "/a/b/" /\
  join [""; ""] = ".".
Proof. repeat split. Qed.

Example split_examples :
  split ":" "example.com:8080" = ["example.com"; "8080"] /\
  split ":" "" = [EmptyString] /\
  split ":" "a:b:" = ["a"; "b"; EmptyString].
Proof. repeat split. Qed.

Example host_pattern_examples :
  regex_test true V1.host_pattern "example.com" = true /\
  regex_test true V1.host_pattern "sub.example.co" = true /\
  regex_test true V1.host_pattern "EXAMPLE.Com" = true /\
  regex_test true V1.host_pattern "example.c" = false /\
  regex_test true V1.host_pattern "-example.com" = false /\
  regex_test true V1.host_pattern "example.c0m" = false /\
  regex_test true V1.host_pattern "localhost" = false /\
  regex_test true V2.host_pattern "-example.com" = true /\
  regex_test false V1.host_pattern "EXAMPLE.Com" = false.
Proof. repeat split. Qed.

Example host_examples :
  V1.host (forwarded_request "WWW.Example.com:8443" "internal:3000" "/") = "Example.com" /\
  V1.host (request_for "wwwexample.com" "/") = "wwwexample.com" /\
  V1.host {| headers := ∅; url := "/" |} = EmptyString /\
  V2.host (request_for "www.example.com:80" "/") = "www.example.com:80" /\
  V2.host (request_for "a^www.example.com" "/") = "aexample.com".
Proof. repeat split. Qed.

(** ** Strings *)

Lemma append_empty_r (s : string) : s +:+ EmptyString = s.
Proof. induction s as [|c s IH]; simpl; [reflexivity | now rewrite IH]. Qed.

Lemma append_assoc (s1 s2 s3 : string) : (s1 +:+ s2) +:+ s3 = s1 +:+ (s2 +:+ s3).
Proof. induction s1 as [|c s1 IH]; simpl; [reflexivity | now rewrite IH]. Qed.

Lemma append_eq_empty (s1 s2 : string) :
  s1 +:+ s2 = EmptyString -> s1 = EmptyString /\ s2 = EmptyString.
Proof. destruct s1; simpl; [auto | discriminate]. Qed.

Lemma append_eq_cons (s1 s2 s : string) (c : ascii) :
  s1 +:+ s2 = String c s ->
  (s1 = EmptyString /\ s2 = String c s) \/
  (exists s1', s1 = String c s1' /\ s = s1' +:+ s2).
Proof.
  destruct s1 as [|a s1]; simpl; intros H.
  - left; auto.
  - injection H as -> <-. right; eauto.
Qed.

Lemma string_forall_app (p : ascii -> bool) (s1 s2 : string) :
  string_forall p (s1 +:+ s2) = string_forall p s1 && string_forall p s2.
Proof.
  induction s1 as [|c s1 IH]; simpl; [reflexivity|].
  now rewrite IH, andb_assoc.
Qed.

Lemma startsWith_app (p s : string) : startsWith (p +:+ s) p = true.
Proof.
  induction p as [|c p IH]; simpl; [reflexivity|].
  now rewrite Ascii.eqb_refl, IH.
Qed.

Lemma includes_char_forall (p : ascii -> bool) (c : ascii) (s : string) :
  string_forall p s = true -> p c = false ->
  includes s (String c EmptyString) = false.
Proof.
  intros Hall Hc. induction s as [|a s IH]; simpl in *; [reflexivity|].
  apply andb_true_iff in Hall as [Ha Hs].
  rewrite (IH Hs), orb_false_r, andb_true_r.
  destruct (Ascii.eqb_spec c a) as [->|]; [congruence | reflexivity].
Qed.

Lemma includes_cons (a : ascii) (s sub : string) :
  includes (String a s) sub = startsWith (String a s) sub || includes s sub.
Proof. reflexivity. Qed.

Lemma startsWith_cons (a b : ascii) (s p : string) :
  startsWith (String b s) (String a p) = Ascii.eqb a b && startsWith s p.
Proof. reflexivity. Qed.

Lemma includes_unfold (s sub : string) :
  includes s sub = startsWith s sub ||
                   match s with EmptyString => false | String _ s' => includes s' sub end.
Proof. destruct s; reflexivity. Qed.

Lemma includes_middle (a x b : string) : includes (a +:+ x +:+ b) x = true.
Proof.
  induction a as [|c a IH].
  - change (EmptyString +:+ x +:+ b) with (x +:+ b).
    now rewrite includes_unfold, startsWith_app.
  - change (String c a +:+ x +:+ b) with (String c (a +:+ x +:+ b)).
    rewrite includes_cons, IH. apply orb_true_r.
Qed.

Lemma includes_inner (a p x q b : string) :
  includes (a +:+ (p +:+ x +:+ q) +:+ b) x = true.
Proof.
  replace (a +:+ (p +:+ x +:+ q) +:+ b) with ((a +:+ p) +:+ x +:+ (q +:+ b))
    by (now rewrite !append_assoc).
  apply includes_middle.
Qed.

(** The page is a fixed frame around its two interpolations. *)
Lemma notFoundHtml_frame :
  exists head middle tail,
    forall message domain,
      notFoundHtml message domain =
      head +:+ ("<h2>" +:+ message +:+ "</h2>")
           +:+ middle
           +:+ ("<div class=" +:+ dquote +:+ "domain" +:+ dquote +:+ ">"
                  +:+ domain +:+ "</div>")
           +:+ tail.
Proof.
  exists (take_chars 1216 (notFoundHtml EmptyString EmptyString)),
         (take_chars 70 (drop_chars 1225 (notFoundHtml EmptyString EmptyString))),
         (drop_chars 1321 (notFoundHtml EmptyString EmptyString)).
  intros message domain. vm_compute. reflexivity.
Qed.

Lemma page_shows_message (message domain : string) :
  includes (notFoundHtml message domain) ("<h2>" +:+ message +:+ "</h2>") = true.
Proof.
  destruct notFoundHtml_frame as (head & middle & tail & ->). apply includes_middle.
Qed.


(** A string interpolated into the message is in the page as it is. *)
Lemma page_shows_interpolation (before x after domain : string) :
  includes (notFoundHtml (before +:+ x +:+ after) domain) x = true.
Proof.
  destruct notFoundHtml_frame as (head & middle & tail & ->).
  set (rest := middle +:+ _).
  replace (head +:+ ("<h2>" +:+ (before +:+ x +:+ after) +:+ "</h2>") +:+ rest)
    with ((head +:+ "<h2>" +:+ before) +:+ x +:+ (after +:+ "</h2>" +:+ rest))
    by (now rewrite !append_assoc).
  apply includes_middle.
Qed.


(** ** Regular expressions: the matcher decides the declarative reading *)

Section RegexTheory.

Variable ic : bool.

Lemma matches_empty_nullable (r : regex) (s : string) :
  Matches ic r s -> s = EmptyString -> nullable r = true.
Proof.
  induction 1 as [| | r1 r2 s1 s2 _ IH1 _ IH2 | r1 r2 s _ IH | r1 r2 s _ IH
                 | | ]; intros E; simpl; try reflexivity.
  - discriminate.
  - apply append_eq_empty in E as [-> ->]. now rewrite IH1, IH2.
  - now rewrite IH.
  - rewrite IH by assumption. apply orb_true_r.
Qed.

Lemma nullable_matches_empty (r : regex) :
  nullable r = true -> Matches ic r EmptyString.
Proof.
  induction r as [| | cs | r1 IH1 r2 IH2 | r1 IH1 r2 IH2 | r IH]; simpl; intros H.
  - discriminate.
  - constructor.
  - discriminate.
  - apply andb_true_iff in H as [H1 H2].
    change EmptyString with (EmptyString +:+ EmptyString). constructor; auto.
  - apply orb_true_iff in H as [H|H]; [apply MAltL | apply MAltR]; auto.
  - constructor.
Qed.

Lemma deriv_sound (c : ascii) (r : regex) :
  forall s, Matches ic (deriv ic c r) s -> Matches ic r (String c s).
Proof.
  induction r as [| | cs | r1 IH1 r2 IH2 | r1 IH1 r2 IH2 | r IH]; simpl; intros s H.
  - inversion H.
  - inversion H.
  - destruct (in_cset ic cs c) eqn:E; inversion H; subst. now constructor.
  - assert (Hleft : forall t, Matches ic (RCat (deriv ic c r1) r2) t ->
                              Matches ic (RCat r1 r2) (String c t)).
    { intros t Ht. inversion Ht; subst.
      change (String c (s1 +:+ s2)) with (String c s1 +:+ s2).
      constructor; auto. }
    destruct (nullable r1) eqn:N.
    + inversion H; subst; [now apply Hleft|].
      change (String c s) with (EmptyString +:+ String c s).
      constructor; [now apply nullable_matches_empty | auto].
    + now apply Hleft.
  - inversion H; subst; [apply MAltL | apply MAltR]; auto.
  - inversion H; subst.
    change (String c (s1 +:+ s2)) with (String c s1 +:+ s2).
    constructor; auto.
Qed.

Lemma deriv_complete (r : regex) (s0 : string) :
  Matches ic r s0 ->
  forall c s, s0 = String c s -> Matches ic (deriv ic c r) s.
Proof.
  induction 1 as [| cs a Ha | r1 r2 s1 s2 H1 IH1 H2 IH2 | r1 r2 s0 _ IH
                 | r1 r2 s0 _ IH | | r s1 s2 H1 IH1 H2 IH2]; intros c s E; simpl.
  - discriminate.
  - injection E as -> <-. rewrite Ha. constructor.
  - apply append_eq_cons in E as [[-> ->] | (s1' & -> & ->)].
    + rewrite (matches_empty_nullable _ _ H1 eq_refl).
      apply MAltR. now apply IH2.
    + assert (Matches ic (RCat (deriv ic c r1) r2) (s1' +:+ s2))
        by (constructor; auto).
      destruct (nullable r1); [now apply MAltL | assumption].
  - apply MAltL; auto.
  - apply MAltR; auto.
  - discriminate.
  - apply append_eq_cons in E as [[-> ->] | (s1' & -> & ->)].
    + now apply IH2.
    + constructor; auto.
Qed.

Lemma regex_test_spec (s : string) :
  forall r, regex_test ic r s = true <-> Matches ic r s.
Proof.
  induction s as [|c s IH]; intros r; simpl.
  - split; [apply nullable_matches_empty|].
    intros H. now apply (matches_empty_nullable r EmptyString).
  - rewrite IH. split; [apply deriv_sound|].
    intros H. now apply (deriv_complete r (String c s)).
Qed.

Lemma star_set_forall (r : regex) (s : string) :
  Matches ic r s ->
  forall cs, r = RStar (RSet cs) -> string_forall (in_cset ic cs) s = true.
Proof.
  induction 1 as [| | | | | | r s1 s2 H1 _ H2 IH2]; intros cs0 E; try discriminate.
  - reflexivity.
  - injection E as ->. inversion H1; subst. simpl.
    rewrite (IH2 cs0 eq_refl). now rewrite andb_true_r.
Qed.

Lemma at_least_set_forall (cs : list cset_item) (n : nat) :
  forall s, Matches ic (RAtLeast n (RSet cs)) s ->
            string_forall (in_cset ic cs) s = true /\ n <= String.length s.
Proof.
  induction n as [|n IH]; simpl; intros s H.
  - split; [now apply (star_set_forall _ _ H) | lia].
  - inversion H as [| | r1 r2 s1 s2 H1 H2 | | | |]; subst.
    inversion H1; subst. simpl. destruct (IH _ H2) as [Hall Hlen].
    rewrite Hall, andb_true_r. split; [assumption | lia].
Qed.

End RegexTheory.

(** ** Paths: a plain segment appended to a normalized absolute path *)

Lemma split_nonempty (sep : ascii) (s : string) : split sep s <> [].
Proof.
  induction s as [|c s IH]; simpl; [discriminate|].
  destruct (Ascii.eqb c sep); [discriminate|].
  destruct (split sep s); discriminate.
Qed.

Lemma split_app (sep : ascii) (a b : string) :
  split sep (a +:+ String sep b) = split sep a ++ split sep b.
Proof.
  induction a as [|c a IH]; simpl.
  - now rewrite Ascii.eqb_refl.
  - rewrite IH. destruct (Ascii.eqb c sep); [reflexivity|].
    pose proof (split_nonempty sep a) as Hne.
    destruct (split sep a); [congruence | reflexivity].
Qed.

Lemma split_no_slash (h : string) : no_slash h = true -> split slash h = [h].
Proof.
  unfold no_slash. induction h as [|c h IH]; simpl; [reflexivity|].
  intros H. apply andb_true_iff in H as [Hc Hh].
  apply negb_true_iff in Hc. rewrite Hc, (IH Hh). reflexivity.
Qed.

Lemma split_segments_no_slash (s : string) :
  Forall (fun seg => no_slash seg = true) (split slash s).
Proof.
  induction s as [|c s IH]; simpl.
  - repeat constructor.
  - destruct (Ascii.eqb c slash) eqn:E.
    + constructor; [reflexivity | assumption].
    + destruct (split slash s) as [|seg segs].
      * constructor; [|constructor]. unfold no_slash. simpl. now rewrite E.
      * inversion IH; subst. constructor; [|assumption].
        unfold no_slash in *. simpl. now rewrite E.
Qed.

Lemma plain_segment_step (a : bool) (st : list string) (h : string) :
  plain_segment h = true -> norm_step a st h = h :: st.
Proof.
  unfold plain_segment, truthy, norm_step. intros H.
  repeat (apply andb_true_iff in H as [H ?]).
  repeat match goal with X : negb _ = true |- _ => apply negb_true_iff in X end.
  now repeat match goal with X : _ = false |- _ => rewrite X; clear X end.
Qed.

Lemma norm_step_plain (st : list string) (seg : string) :
  Forall (fun x => plain_segment x = true) st -> no_slash seg = true ->
  Forall (fun x => plain_segment x = true) (norm_step false st seg).
Proof.
  intros Hst Hseg. unfold norm_step.
  destruct (String.eqb seg EmptyString) eqn:E1; simpl; [assumption|].
  destruct (is_dot seg) eqn:E2; simpl; [assumption|].
  destruct (is_dotdot seg) eqn:E3.
  - destruct st as [|top below]; [constructor|].
    destruct (is_dotdot top); [assumption | now inversion Hst].
  - constructor; [|assumption].
    unfold plain_segment, truthy. now rewrite E1, E2, E3, Hseg.
Qed.

Lemma norm_stack_plain (p : string) :
  Forall (fun x => plain_segment x = true) (norm_stack false p).
Proof.
  unfold norm_stack.
  assert (G : forall segs st,
             Forall (fun seg => no_slash seg = true) segs ->
             Forall (fun x => plain_segment x = true) st ->
             Forall (fun x => plain_segment x = true)
                    (fold_left (norm_step false) segs st)).
  { induction segs as [|seg segs IH]; simpl; intros st Hsegs Hst; [assumption|].
    inversion Hsegs; subst. apply IH; [assumption|]. now apply norm_step_plain. }
  apply G; [apply split_segments_no_slash | constructor].
Qed.

Lemma norm_stack_snoc (a : bool) (p h : string) :
  plain_segment h = true ->
  norm_stack a (p +:+ "/" +:+ h) = h :: norm_stack a p.
Proof.
  intros Hh. unfold norm_stack.
  change (p +:+ "/" +:+ h) with (p +:+ String slash h).
  rewrite split_app, fold_left_app.
  assert (Hns : no_slash h = true).
  { unfold plain_segment in Hh. repeat (apply andb_true_iff in Hh as [Hh ?]).
    assumption. }
  rewrite (split_no_slash h Hns). simpl. now apply plain_segment_step.
Qed.

Lemma join_with_snoc (sep : string) (T : list string) (t : string) :
  join_with sep (T ++ [t]) =
  match T with [] => t | _ => join_with sep T +:+ sep +:+ t end.
Proof.
  induction T as [|x T IH]; [reflexivity|].
  destruct T as [|y T]; [reflexivity|].
  change (join_with sep ((x :: y :: T) ++ [t]))
    with (x +:+ sep +:+ join_with sep ((y :: T) ++ [t])).
  rewrite IH. change (join_with sep (x :: y :: T))
    with (x +:+ sep +:+ join_with sep (y :: T)).
  now rewrite !append_assoc.
Qed.

Lemma norm_stack_canonical (T : list string) :
  Forall (fun x => plain_segment x = true) T ->
  norm_stack false ("/" +:+ join_with "/" T) = rev T.
Proof.
  induction T as [|t T IH] using rev_ind; intros HT; [reflexivity|].
  apply Forall_app in HT as [HT Ht]. inversion Ht; subst.
  rewrite join_with_snoc, rev_unit. destruct T as [|x T].
  - change ("/" +:+ t) with (EmptyString +:+ "/" +:+ t).
    now rewrite norm_stack_snoc.
  - rewrite <- (IH HT).
    change ("/" +:+ join_with "/" (x :: T) +:+ "/" +:+ t)
      with (("/" +:+ join_with "/" (x :: T)) +:+ "/" +:+ t).
    now rewrite norm_stack_snoc.
Qed.

Lemma last_char_app (a b : string) :
  b <> EmptyString -> last_char (a +:+ b) = last_char b.
Proof.
  intros Hb. induction a as [|c a IH]; [reflexivity|].
  simpl. rewrite IH. destruct (a +:+ b) eqn:E; [|reflexivity].
  apply append_eq_empty in E as [_ ->]. congruence.
Qed.

Lemma plain_segment_facts (h : string) :
  plain_segment h = true ->
  h <> EmptyString /\ no_slash h = true /\ ends_with_slash h = false.
Proof.
  unfold plain_segment, truthy. intros H.
  repeat (apply andb_true_iff in H as [H ?]).
  apply negb_true_iff, String.eqb_neq in H. repeat split; try assumption.
  unfold ends_with_slash.
  assert (G : forall s c, no_slash s = true -> last_char s = Some c ->
                          Ascii.eqb c slash = false).
  { unfold no_slash. induction s as [|a s IH]; simpl; [discriminate|].
    intros c Hs. apply andb_true_iff in Hs as [Ha Hs].
    destruct s; [intros [= <-]; now apply negb_true_iff | now apply IH]. }
  destruct (last_char h) eqn:E; [now apply (G h) | reflexivity].
Qed.

Lemma join_with_nonempty (T : list string) :
  Forall (fun x => plain_segment x = true) T -> T <> [] ->
  String.eqb (join_with "/" T) EmptyString = false.
Proof.
  intros HT Hne. destruct T as [|x T]; [congruence|].
  inversion HT as [|? ? Hx _]; subst.
  apply plain_segment_facts in Hx as (Hx & _ & _).
  destruct x as [|c x]; [congruence|].
  destruct T; reflexivity.
Qed.

Lemma absolute_app (p s : string) : isAbsolute p = true -> isAbsolute (p +:+ s) = true.
Proof. destruct p as [|c p]; [discriminate | intros H; exact H]. Qed.

Lemma absolute_nonempty (p : string) : isAbsolute p = true -> String.eqb p EmptyString = false.
Proof. destruct p; [discriminate | reflexivity]. Qed.

(** [normalize] on an absolute path without trailing separator whose kept
    segments are [T]. *)
Lemma normalize_absolute (p : string) (T : list string) :
  isAbsolute p = true -> ends_with_slash p = false ->
  norm_stack false p = rev T ->
  Forall (fun x => plain_segment x = true) T -> T <> [] ->
  normalize p = "/" +:+ join_with "/" T.
Proof.
  intros Habs Htr Hst HT Hne. unfold normalize, normalizeString.
  rewrite (absolute_nonempty p Habs), Habs, Htr. simpl negb.
  rewrite Hst, rev_involutive, (join_with_nonempty T HT Hne). reflexivity.
Qed.

Lemma join_plain (p h : string) (T : list string) :
  isAbsolute p = true -> norm_stack false p = rev T ->
  Forall (fun x => plain_segment x = true) T -> plain_segment h = true ->
  join [p; h] = "/" +:+ join_with "/" (T ++ [h]).
Proof.
  intros Habs Hst HT Hh.
  destruct (plain_segment_facts h Hh) as (Hne & Hns & Htr).
  assert (Hp : truthy p = true)
    by (unfold truthy; now rewrite (absolute_nonempty p Habs)).
  assert (Hh' : truthy h = true)
    by (unfold truthy; apply negb_true_iff; now apply String.eqb_neq).
  unfold join. cbn [List.filter]. rewrite Hp, Hh'.
  change (normalize (p +:+ "/" +:+ h) = "/" +:+ join_with "/" (T ++ [h])).
  apply normalize_absolute.
  - now apply absolute_app.
  - unfold ends_with_slash.
    change (p +:+ "/" +:+ h) with (p +:+ String slash h).
    rewrite last_char_app by discriminate.
    change (String slash h) with ("/" +:+ h).
    rewrite last_char_app by assumption. exact Htr.
  - rewrite norm_stack_snoc by assumption. now rewrite rev_unit, Hst.
  - apply Forall_app; split; [assumption | now constructor].
  - now destruct T.
Qed.

Lemma canonical_snoc (T : list string) (h : string) :
  "/" +:+ join_with "/" (T ++ [h]) =
  match T with [] => EmptyString | _ => "/" +:+ join_with "/" T end +:+ "/" +:+ h.
Proof.
  rewrite join_with_snoc. destruct T as [|x T]; [reflexivity|].
  now rewrite append_assoc.
Qed.

Lemma normalize_canonical (T : list string) :
  Forall (fun x => plain_segment x = true) T -> T <> [] ->
  normalize ("/" +:+ join_with "/" T) = "/" +:+ join_with "/" T.
Proof.
  intros HT Hne. apply normalize_absolute; try assumption.
  - reflexivity.
  - destruct T as [|t T _] using rev_ind; [congruence|].
    apply Forall_app in HT as [_ Ht]. inversion Ht as [|? ? Hp _]; subst.
    destruct (plain_segment_facts t Hp) as (Hne' & _ & Htr).
    rewrite canonical_snoc. unfold ends_with_slash.
    rewrite last_char_app by discriminate.
    rewrite last_char_app by assumption. exact Htr.
  - now apply norm_stack_canonical.
Qed.

(** Where the handler looks for the site of [h] under a well-formed working
    directory: [base] is [cwd] without its trailing separator, if it has one. *)
Lemma resolved_path (cwd h : string) :
  well_formed_cwd cwd = true -> plain_segment h = true ->
  exists base,
    (cwd = base \/ cwd = base +:+ "/") /\
    V1.siteDir cwd h = base +:+ "/" +:+ h /\
    V1.indexPath cwd h = base +:+ "/" +:+ h +:+ "/index.html" /\
    V1.normalizedPath cwd h = base +:+ "/" +:+ h +:+ "/index.html" /\
    V1.rootIndexPath cwd = base +:+ "/index.html".
Proof.
  unfold well_formed_cwd. intros Hwf Hh.
  apply andb_true_iff in Hwf as [Habs Hnorm]. apply String.eqb_eq in Hnorm.
  set (T := rev (norm_stack false cwd)).
  assert (HT : Forall (fun x => plain_segment x = true) T)
    by (apply Forall_rev, norm_stack_plain).
  assert (Hst : norm_stack false cwd = rev T)
    by (unfold T; now rewrite rev_involutive).
  assert (Hidx : plain_segment "index.html" = true) by reflexivity.
  set (base := match T with [] => EmptyString | _ => "/" +:+ join_with "/" T end).
  assert (Hsite : V1.siteDir cwd h = base +:+ "/" +:+ h).
  { unfold V1.siteDir. rewrite (join_plain cwd h T) by assumption.
    apply canonical_snoc. }
  assert (HT' : Forall (fun x => plain_segment x = true) (T ++ [h]))
    by (apply Forall_app; split; [assumption | now constructor]).
  assert (Hindex : V1.indexPath cwd h = "/" +:+ join_with "/" ((T ++ [h]) ++ ["index.html"])).
  { unfold V1.indexPath, V1.siteDir. rewrite (join_plain cwd h T) by assumption.
    apply join_plain; [reflexivity | | assumption | assumption].
    now apply norm_stack_canonical. }
  assert (Hshape : "/" +:+ join_with "/" ((T ++ [h]) ++ ["index.html"])
                   = base +:+ "/" +:+ h +:+ "/index.html").
  { rewrite canonical_snoc.
    replace (match T ++ [h] with [] => EmptyString
             | _ => "/" +:+ join_with "/" (T ++ [h]) end)
      with ("/" +:+ join_with "/" (T ++ [h])) by (now destruct T).
    rewrite canonical_snoc. fold base. now rewrite !append_assoc. }
  exists base. repeat split.
  - rewrite <- Hnorm at 1 2. unfold normalize, normalizeString.
    rewrite (absolute_nonempty cwd Habs), Habs. simpl negb. fold T.
    unfold base. destruct T as [|x T'] eqn:ET; [right; reflexivity|].
    rewrite (join_with_nonempty (x :: T') HT) by discriminate.
    destruct (ends_with_slash cwd); [right | left]; [|reflexivity].
    now rewrite append_assoc.
  - exact Hsite.
  - now rewrite Hindex.
  - unfold V1.normalizedPath. rewrite Hindex.
    rewrite normalize_canonical; [exact Hshape | |].
    + apply Forall_app; split; [assumption | now constructor].
    + now destruct (T ++ [h]).
  - unfold V1.rootIndexPath. rewrite (join_plain cwd "index.html" T) by assumption.
    apply canonical_snoc.
Qed.

(** ** What the host patterns accept *)

Lemma string_forall_impl (p q : ascii -> bool) (s : string) :
  (forall c, p c = true -> q c = true) ->
  string_forall p s = true -> string_forall q s = true.
Proof.
  intros Hpq. induction s as [|c s IH]; simpl; [reflexivity|].
  intros H. apply andb_true_iff in H as [Hc Hs].
  now rewrite (Hpq c Hc), (IH Hs).
Qed.

Lemma alnum_host_char :
  forall c, in_cset true [CRange "a" "z"; CRange "0" "9"] c = true ->
            in_cset true [CRange "a" "z"; CRange "0" "9"; CChar "."; CChar "-"] c = true.
Proof. by_cases_on_char. Qed.

Lemma letter_host_char :
  forall c, in_cset true [CRange "a" "z"] c = true ->
            in_cset true [CRange "a" "z"; CRange "0" "9"; CChar "."; CChar "-"] c = true.
Proof. by_cases_on_char. Qed.

Lemma dot_host_char :
  forall c, in_cset true [CChar "."] c = true ->
            in_cset true [CRange "a" "z"; CRange "0" "9"; CChar "."; CChar "-"] c = true.
Proof. by_cases_on_char. Qed.

Lemma alnum_not_dot :
  forall c, in_cset true [CRange "a" "z"; CRange "0" "9"] c = true ->
            Ascii.eqb c "." = false.
Proof. by_cases_on_char. Qed.

Lemma host_char_not_slash :
  forall c, in_cset true [CRange "a" "z"; CRange "0" "9"; CChar "."; CChar "-"] c = true ->
            negb (Ascii.eqb c slash) = true.
Proof. by_cases_on_char. Qed.

(** A host the first pattern accepts starts with a letter or digit and is
    made of letters, digits, dots and hyphens. *)
Lemma v1_host_pattern_shape (h : string) :
  regex_test true V1.host_pattern h = true ->
  (exists c h', h = String c h' /\
                in_cset true [CRange "a" "z"; CRange "0" "9"] c = true) /\
  string_forall
    (in_cset true [CRange "a" "z"; CRange "0" "9"; CChar "."; CChar "-"]) h = true.
Proof.
  intros H. apply regex_test_spec in H. unfold V1.host_pattern in H.
  inversion H as [| | ? ? s1 s2 H1 H2 | | | |]; subst; clear H.
  inversion H1 as [| ? c Hc | | | | |]; subst; clear H1.
  inversion H2 as [| | ? ? s3 s4 H3 H4 | | | |]; subst; clear H2.
  inversion H4 as [| | ? ? s5 s6 H5 H6 | | | |]; subst; clear H4.
  inversion H5 as [| ? d Hd | | | | |]; subst; clear H5.
  apply (star_set_forall true _ _) with (cs := [CRange "a" "z"; CRange "0" "9"; CChar "."; CChar "-"])
    in H3; [|reflexivity].
  apply (at_least_set_forall true [CRange "a" "z"] 2) in H6 as [H6 _].
  split; [exists c; eexists; split; [reflexivity | assumption]|].
  simpl. rewrite !string_forall_app. simpl.
  rewrite (alnum_host_char c Hc), H3, (dot_host_char d Hd).
  now rewrite (string_forall_impl _ _ s6 letter_host_char H6).
Qed.

Lemma v2_host_pattern_shape (h : string) :
  regex_test true V2.host_pattern h = true ->
  h <> EmptyString /\
  string_forall
    (in_cset true [CRange "a" "z"; CRange "0" "9"; CChar "."; CChar "-"]) h = true.
Proof.
  intros H. apply regex_test_spec in H. unfold V2.host_pattern, RPlus in H.
  inversion H as [| | ? ? s1 s2 H1 H2 | | | |]; subst; clear H.
  inversion H1 as [| | ? ? s3 s4 H3 H4 | | | |]; subst; clear H1.
  inversion H3 as [| ? c Hc | | | | |]; subst; clear H3.
  inversion H2 as [| | ? ? s5 s6 H5 H6 | | | |]; subst; clear H2.
  inversion H5 as [| ? d Hd | | | | |]; subst; clear H5.
  apply (star_set_forall true _ _) with (cs := [CRange "a" "z"; CRange "0" "9"; CChar "."; CChar "-"])
    in H4; [|reflexivity].
  apply (at_least_set_forall true [CRange "a" "z"] 2) in H6 as [H6 _].
  split; [discriminate|].
  simpl. rewrite !string_forall_app. simpl.
  rewrite Hc, H4, (dot_host_char d Hd).
  now rewrite (string_forall_impl _ _ s6 letter_host_char H6).
Qed.

Lemma host_chars_no_separator (h : string) :
  string_forall
    (in_cset true [CRange "a" "z"; CRange "0" "9"; CChar "."; CChar "-"]) h = true ->
  includes h "/" = false /\ includes h backslash = false.
Proof.
  intros H. split; apply (includes_char_forall _ _ _ H); reflexivity.
Qed.

Lemma v1_valid_host_plain (h : string) :
  regex_test true V1.host_pattern h = true -> plain_segment h = true.
Proof.
  intros H. destruct (v1_host_pattern_shape h H) as [(c & h' & -> & Hc) Hall].
  unfold plain_segment, no_slash.
  rewrite (string_forall_impl _ _ _ host_char_not_slash Hall).
  unfold is_dot, is_dotdot. simpl. now rewrite (alnum_not_dot c Hc).
Qed.

(** ** The senders and the two validation tests, step by step *)

#[local] Arguments join : simpl never.
#[local] Arguments normalize : simpl never.
#[local] Arguments regex_test : simpl never.
#[local] Arguments includes : simpl never.
#[local] Arguments startsWith : simpl never.
#[local] Arguments String.eqb : simpl never.

Lemma send404_run (message : string) (w : World) (st : State) :
  V1.send404 message w st =
  (Returned tt, {| st_res := V1.res_404 message (st_res st); st_trace := st_trace st |}).
Proof. reflexivity. Qed.

Lemma sendError_run (c : nat) (message : string) (w : World) (st : State) :
  V1.sendError c message w st =
  (Returned tt, {| st_res := V1.res_error c message (now w) (st_res st);
                   st_trace := st_trace st |}).
Proof. reflexivity. Qed.

Lemma sendHtml_run (p : string) (c : nat) (w : World) (st : State) :
  V1.sendHtml p c w st =
  (Returned tt,
   {| st_res := match fs_readFileSync w p with
                | Returned content => V1.res_html c content (st_res st)
                | Thrown _ => V1.res_error 500 "无法读取页面内容" (now w) (st_res st)
                end;
      st_trace := st_trace st ++ [OpRead p] |}).
Proof.
  unfold V1.sendHtml, try_catch, bind, readFileSync, bind, log_op. simpl.
  destruct (fs_readFileSync w p); reflexivity.
Qed.

Lemma on_error_run (e : JsError) (w : World) (st : State) :
  V1.on_error e w st =
  (Returned tt,
   {| st_res := if code_is e "ENOENT" then V1.res_404 "请求的资源不存在" (st_res st)
                else if code_is e "EACCES"
                     then V1.res_error 403 "没有访问权限" (now w) (st_res st)
                     else V1.res_error 500 "服务器内部错误" (now w) (st_res st);
      st_trace := st_trace st |}).
Proof.
  unfold V1.on_error.
  destruct (code_is e "ENOENT"); [apply send404_run|].
  destruct (code_is e "EACCES"); apply sendError_run.
Qed.

Lemma handler_rejected (req : Request) (w : World) (st : State) :
  V1.host_rejected (V1.host req) = true ->
  V1.handler req w st = V1.send404 (V1.msg_invalid (V1.host req)) w st.
Proof. unfold V1.handler, V1.host_rejected. now intros ->. Qed.

Lemma handler_suspicious (req : Request) (w : World) (st : State) :
  V1.host_rejected (V1.host req) = false ->
  V1.host_suspicious (V1.host req) = true ->
  V1.handler req w st = V1.send404 "非法请求" w st.
Proof. unfold V1.handler, V1.host_rejected, V1.host_suspicious. now intros -> ->. Qed.

Lemma handler_validated (req : Request) (w : World) (st : State) :
  V1.host_rejected (V1.host req) = false ->
  V1.host_suspicious (V1.host req) = false ->
  V1.handler req w st = try_catch (V1.serve_site req (V1.host req)) V1.on_error w st.
Proof. unfold V1.handler, V1.host_rejected, V1.host_suspicious. now intros -> ->. Qed.

(** The [try] block under a working directory that passes the containment
    check. *)
Lemma serve_site_run (req : Request) (h cwd : string) (w : World) (st : State) :
  w_cwd w = Returned cwd ->
  startsWith (V1.normalizedPath cwd h) cwd = true ->
  V1.serve_site req h w st =
  let np := V1.normalizedPath cwd h in
  let root := V1.rootIndexPath cwd in
  let st1 := {| st_res := st_res st; st_trace := st_trace st ++ [OpExists np] |} in
  if fs_existsSync w np then
    let st2 := {| st_res := st_res st; st_trace := st_trace st1 ++ [OpStat np] |} in
    match fs_statSync w np with
    | Returned stats =>
        if isFile stats then V1.sendHtml np 200 w st2
        else V1.send404 "资源类型错误" w st2
    | Thrown e => (Thrown e, st2)
    end
  else
    let st2 := {| st_res := st_res st; st_trace := st_trace st1 ++ [OpExists root] |} in
    if fs_existsSync w root && String.eqb (url req) "/"
    then V1.sendHtml root 200 w st2
    else V1.send404 (V1.msg_no_site h) w st2.
Proof.
  intros Hcwd Hin.
  unfold V1.serve_site, bind, process_cwd, existsSync, statSync, bind, log_op.
  rewrite Hcwd. cbv zeta.
  change (normalize (join [join [cwd; h]; "index.html"])) with (V1.normalizedPath cwd h).
  change (join [cwd; "index.html"]) with (V1.rootIndexPath cwd).
  rewrite Hin. cbn [negb st_res st_trace].
  destruct (fs_existsSync w (V1.normalizedPath cwd h)); cbn [negb];
    [|cbv beta; rewrite Hcwd; fold (V1.rootIndexPath cwd);
      now destruct (fs_existsSync w (V1.rootIndexPath cwd) && String.eqb (url req) "/")].
  destruct (fs_statSync w (V1.normalizedPath cwd h)) as [stats|e]; [|reflexivity].
  now destruct (isFile stats).
Qed.

Lemma serve_site_cwd_throws (req : Request) (h : string) (e : JsError)
      (w : World) (st : State) :
  w_cwd w = Thrown e -> V1.serve_site req h w st = (Thrown e, st).
Proof. intros Hcwd. unfold V1.serve_site, bind, process_cwd. now rewrite Hcwd. Qed.

Lemma validated_host (h : string) :
  V1.host_rejected h = false ->
  regex_test true V1.host_pattern h = true /\ plain_segment h = true.
Proof.
  unfold V1.host_rejected. intros H. apply orb_false_iff in H as [_ H].
  apply negb_false_iff in H. split; [assumption | now apply v1_valid_host_plain].
Qed.

Lemma validated_host_contained (cwd h : string) :
  well_formed_cwd cwd = true -> V1.host_rejected h = false ->
  startsWith (V1.normalizedPath cwd h) cwd = true.
Proof.
  intros Hwf Hh. apply validated_host in Hh as [_ Hplain].
  destruct (resolved_path cwd h Hwf Hplain) as (base & Hbase & _ & _ & -> & _).
  destruct Hbase as [-> | ->]; [apply startsWith_app|].
  change (base +:+ "/" +:+ h +:+ "/index.html")
    with (base +:+ "/" +:+ (h +:+ "/index.html")).
  rewrite <- append_assoc. apply startsWith_app.
Qed.

Lemma accepted_host_no_separator (h : string) :
  regex_test true V1.host_pattern h = true ->
  includes h "/" = false /\ includes h backslash = false.
Proof.
  intros H. apply host_chars_no_separator. now apply v1_host_pattern_shape.
Qed.

Lemma accepted_host_blacklist (h : string) :
  V1.host_rejected h = false -> V1.host_suspicious h = includes h "..".
Proof.
  intros Hok. apply validated_host in Hok as [Hre _].
  destruct (accepted_host_no_separator h Hre) as [H1 H2].
  unfold V1.host_suspicious. now rewrite H1, H2, !orb_false_r.
Qed.

(** ** Validation: pattern and blacklist *)

(** C4, as the code has it.  A host candidate that contains [/] or [\] fails
    the validation pattern; a candidate that contains [..] may pass it, so
    among the candidates the pattern accepts the blacklist rejects exactly
    those that contain [..]. *)
Theorem separators_fail_host_pattern (h : string) :
  (includes h "/" = true \/ includes h backslash = true ->
   regex_test true V1.host_pattern h = false) /\
  (V1.host_rejected h = false -> V1.host_suspicious h = includes h "..").
Proof.
  split; [|apply accepted_host_blacklist].
  intros Hsep. destruct (regex_test true V1.host_pattern h) eqn:Hre; [|reflexivity].
  destruct (accepted_host_no_separator h Hre) as [H1 H2]. destruct Hsep; congruence.
Qed.

Lemma separators_fail_host_pattern_witness :
  regex_test true V1.host_pattern "evil.com/../x" = false /\
  V1.host_suspicious "a..com" = includes "a..com" "..".
Proof.
  split.
  - apply (separators_fail_host_pattern "evil.com/../x"). left. reflexivity.
  - apply (separators_fail_host_pattern "a..com"). reflexivity.
Defined.

(** C4, as stated, fails: [a..com] contains [..] and the validation pattern
    accepts it; only the blacklist rejects it. *)
Lemma double_dot_passes_host_pattern :
  includes "a..com" ".." = true /\
  regex_test true V1.host_pattern "a..com" = true /\
  V1.host_rejected "a..com" = false /\
  V1.host_suspicious "a..com" = true.
Proof. repeat split; reflexivity. Qed.

(** ** Path construction *)

(** C9.  For a host that passes the validation pattern and the blacklist,
    the normalized path [normalize(join(join(cwd, host), 'index.html'))]
    starts with the working directory (an absolute path in normal form, as
    [process.cwd()] returns it), so the handler goes on to the existence
    check of that path instead of answering "illegal path access". *)
Theorem containment_check_passes (cwd host : string) :
  well_formed_cwd cwd = true ->
  regex_test true V1.host_pattern host = true ->
  V1.host_suspicious host = false ->
  startsWith (V1.normalizedPath cwd host) cwd = true /\
  forall req w res,
    V1.host req = host -> w_cwd w = Returned cwd ->
    exists o st rest,
      run (V1.handler req) w res = (o, st) /\
      st_trace st = OpExists (V1.normalizedPath cwd host) :: rest.
Proof.
  intros Hwf Hre Hsus.
  assert (Hok : V1.host_rejected host = false).
  { unfold V1.host_rejected. rewrite Hre.
    destruct (v1_host_pattern_shape host Hre) as [(c & h' & -> & _) _].
    reflexivity. }
  pose proof (validated_host_contained cwd host Hwf Hok) as Hin.
  split; [exact Hin|].
  intros req w res <- Hcwd. unfold run.
  rewrite handler_validated by assumption. unfold try_catch.
  rewrite (serve_site_run req _ cwd) by assumption. cbv zeta.
  destruct (fs_existsSync w (V1.normalizedPath cwd (V1.host req))).
  - destruct (fs_statSync w _) as [stats|e].
    + destruct (isFile stats);
        [rewrite sendHtml_run | rewrite send404_run]; do 3 eexists;
        (split; [reflexivity | reflexivity]).
    + rewrite on_error_run. do 3 eexists. split; reflexivity.
  - destruct (fs_existsSync w _ && _);
      [rewrite sendHtml_run | rewrite send404_run]; do 3 eexists;
      (split; [reflexivity | reflexivity]).
Qed.

Lemma containment_check_passes_witness :
  startsWith (V1.normalizedPath "/var/task" "sub.example.co") "/var/task" = true /\
  exists o st rest,
    run (V1.handler (request_for "sub.example.co" "/")) (deployment [])
        (fresh_res (request_for "sub.example.co" "/")) = (o, st) /\
    st_trace st = OpExists (V1.normalizedPath "/var/task" "sub.example.co") :: rest.
Proof.
  destruct (containment_check_passes "/var/task" "sub.example.co")
    as [H1 H2]; try reflexivity.
  split; [exact H1|]. apply H2; reflexivity.
Defined.

(** ** Host extraction keeps the letters of the header *)

Lemma take_drop_chars (n : nat) (s : string) :
  s = take_chars n s +:+ drop_chars n s.
Proof.
  revert s. induction n as [|n IH]; intros [|c s]; simpl; try reflexivity.
  now rewrite <- IH.
Qed.

Lemma split_head_prefix (sep : ascii) (s : string) :
  exists post, s = split_head sep s +:+ post.
Proof.
  unfold split_head. induction s as [|c s [post IH]]; simpl.
  - now exists EmptyString.
  - destruct (Ascii.eqb c sep); [now exists (String c s)|].
    pose proof (split_nonempty sep s) as Hne.
    destruct (split sep s) as [|seg segs]; [congruence|].
    exists post. simpl. now rewrite <- IH.
Qed.

Lemma host_is_slice_of_header (req : Request) :
  exists pre post, V1.rawHost req = pre +:+ V1.host req +:+ post.
Proof.
  unfold V1.host, replace_prefix.
  destruct (split_head_prefix ":" (V1.rawHost req)) as [post Hpost].
  destruct (regex_test true V1.www_pattern _).
  - exists (take_chars 4 (split_head ":" (V1.rawHost req))), post.
    rewrite <- append_assoc, <- take_drop_chars. exact Hpost.
  - now exists EmptyString, post.
Qed.

(** C10.  The host candidate is a slice of the incoming header, letter case
    included; the pattern accepts upper-case letters; and the site directory
    and the path looked up carry the candidate as it is.  So [Example.COM]
    resolves to [<cwd>/Example.COM], not to [<cwd>/example.com]. *)
Theorem host_case_preserved :
  (forall req, exists pre post, V1.rawHost req = pre +:+ V1.host req +:+ post) /\
  (forall cwd host,
      well_formed_cwd cwd = true ->
      regex_test true V1.host_pattern host = true ->
      exists base,
        (cwd = base \/ cwd = base +:+ "/") /\
        V1.siteDir cwd host = base +:+ "/" +:+ host /\
        V1.normalizedPath cwd host = base +:+ "/" +:+ host +:+ "/index.html") /\
  (V1.host (request_for "Example.COM" "/") = "Example.COM" /\
   V1.host_rejected "Example.COM" = false /\
   V1.host_suspicious "Example.COM" = false /\
   V1.siteDir "/var/task" "Example.COM" = "/var/task/Example.COM" /\
   V1.siteDir "/var/task" "Example.COM" <> V1.siteDir "/var/task" "example.com" /\
   forall content,
     snd (run (V1.handler (request_for "Example.COM" "/about"))
              (deployment [("/var/task/example.com/index.html", content)])
              (fresh_res (request_for "Example.COM" "/about")))
     = {| st_res := V1.res_404 (V1.msg_no_site "Example.COM")
                      (fresh_res (request_for "Example.COM" "/about"));
          st_trace := [OpExists "/var/task/Example.COM/index.html";
                       OpExists "/var/task/index.html"] |}).
Proof.
  split; [exact host_is_slice_of_header|]. split.
  - intros cwd host Hwf Hre.
    destruct (resolved_path cwd host Hwf (v1_valid_host_plain host Hre))
      as (base & Hbase & Hsite & _ & Hnp & _).
    exists base. auto.
  - split; [reflexivity|]. split; [reflexivity|]. split; [reflexivity|].
    split; [reflexivity|]. split; [discriminate|].
    intros content. reflexivity.
Qed.

Lemma host_case_preserved_witness :
  exists base,
    ("/var/task" = base \/ "/var/task" = base +:+ "/") /\
    V1.siteDir "/var/task" "Example.COM" = base +:+ "/" +:+ "Example.COM" /\
    V1.normalizedPath "/var/task" "Example.COM"
    = base +:+ "/" +:+ "Example.COM" +:+ "/index.html".
Proof.
  destruct host_case_preserved as (_ & H & _).
  apply (H "/var/task" "Example.COM"); reflexivity.
Defined.

(** ** Serving a site *)

(** C1, as the code has it.  For a host that passes the validation pattern
    and contains no [..], under a well-formed working directory, when
    [<cwd>/<host>/index.html] exists, is a regular file and reads as
    [content], the handler answers 200 with [content] as the body, whatever
    the requested URL is. *)
Theorem served_site_body (req : Request) (w : World) (res : Res)
        (cwd content : string) :
  regex_test true V1.host_pattern (V1.host req) = true ->
  includes (V1.host req) ".." = false ->
  w_cwd w = Returned cwd -> well_formed_cwd cwd = true ->
  fs_existsSync w (V1.normalizedPath cwd (V1.host req)) = true ->
  fs_statSync w (V1.normalizedPath cwd (V1.host req)) = Returned {| isFile := true |} ->
  fs_readFileSync w (V1.normalizedPath cwd (V1.host req)) = Returned content ->
  run (V1.handler req) w res =
  (Returned tt,
   {| st_res := V1.res_html 200 content res;
      st_trace := [OpExists (V1.normalizedPath cwd (V1.host req));
                   OpStat (V1.normalizedPath cwd (V1.host req));
                   OpRead (V1.normalizedPath cwd (V1.host req))] |}) /\
  statusCode (V1.res_html 200 content res) = 200 /\
  sent (V1.res_html 200 content res) = Some (BodyText content).
Proof.
  intros Hre Hdd Hcwd Hwf Hex Hstat Hread.
  split; [|split; reflexivity].
  assert (Hok : V1.host_rejected (V1.host req) = false).
  { unfold V1.host_rejected. rewrite Hre.
    destruct (v1_host_pattern_shape _ Hre) as [(c & h' & -> & _) _]. reflexivity. }
  assert (Hsus : V1.host_suspicious (V1.host req) = false).
  { now rewrite accepted_host_blacklist. }
  unfold run. rewrite handler_validated by assumption. unfold try_catch.
  rewrite (serve_site_run req _ cwd)
    by (try assumption; now apply validated_host_contained).
  cbv zeta. rewrite Hex, Hstat. cbn [isFile].
  rewrite sendHtml_run, Hread. reflexivity.
Qed.

Lemma served_site_body_witness :
  run (V1.handler (request_for "www.example.com:443" "/pricing?plan=a")) one_site
      (fresh_res (request_for "www.example.com:443" "/pricing?plan=a"))
  = (Returned tt,
     {| st_res := V1.res_html 200 site_page
                    (fresh_res (request_for "www.example.com:443" "/pricing?plan=a"));
        st_trace := [OpExists "/var/task/example.com/index.html";
                     OpStat "/var/task/example.com/index.html";
                     OpRead "/var/task/example.com/index.html"] |}).
Proof.
  apply (served_site_body (request_for "www.example.com:443" "/pricing?plan=a")
           one_site _ "/var/task" site_page); reflexivity.
Defined.

(** C1, as stated, fails: [a..com] passes the validation pattern and
    [<cwd>/a..com/index.html] exists as a regular file, but the blacklist
    answers 404 before any filesystem call. *)
Lemma dotted_host_not_served :
  regex_test true V1.host_pattern (V1.host (request_for "a..com" "/")) = true /\
  fs_existsSync dotted_site (V1.normalizedPath "/var/task" "a..com") = true /\
  fs_statSync dotted_site (V1.normalizedPath "/var/task" "a..com")
  = Returned {| isFile := true |} /\
  fs_readFileSync dotted_site (V1.normalizedPath "/var/task" "a..com")
  = Returned site_page /\
  run (V1.handler (request_for "a..com" "/")) dotted_site
      (fresh_res (request_for "a..com" "/"))
  = (Returned tt,
     {| st_res := V1.res_404 "非法请求" (fresh_res (request_for "a..com" "/"));
        st_trace := [] |}) /\
  statusCode (V1.res_404 "非法请求" (fresh_res (request_for "a..com" "/"))) <> 200.
Proof. repeat split; try reflexivity. discriminate. Qed.

(** C5, as the code has it.  For a validated host whose
    [<cwd>/<host>/index.html] does not exist: when the URL is exactly [/] and
    [<cwd>/index.html] exists and is read as [content], the answer is 200
    with [content] as the body; for any other URL, or when
    [<cwd>/index.html] does not exist, the answer is 404 with the page whose
    message is "the page of domain "<host>" is not created yet", the host
    between the quotes as it is. *)
Theorem missing_site_fallback (req : Request) (w : World) (res : Res) (cwd : string) :
  V1.host_rejected (V1.host req) = false ->
  V1.host_suspicious (V1.host req) = false ->
  w_cwd w = Returned cwd -> well_formed_cwd cwd = true ->
  fs_existsSync w (V1.normalizedPath cwd (V1.host req)) = false ->
  (forall content,
      url req = "/" ->
      fs_existsSync w (V1.rootIndexPath cwd) = true ->
      fs_readFileSync w (V1.rootIndexPath cwd) = Returned content ->
      run (V1.handler req) w res =
      (Returned tt,
       {| st_res := V1.res_html 200 content res;
          st_trace := [OpExists (V1.normalizedPath cwd (V1.host req));
                       OpExists (V1.rootIndexPath cwd);
                       OpRead (V1.rootIndexPath cwd)] |}) /\
      statusCode (st_res (snd (run (V1.handler req) w res))) = 200 /\
      sent (st_res (snd (run (V1.handler req) w res))) = Some (BodyText content)) /\
  (url req <> "/" \/ fs_existsSync w (V1.rootIndexPath cwd) = false ->
   run (V1.handler req) w res =
   (Returned tt,
    {| st_res := V1.res_404 (V1.msg_no_site (V1.host req)) res;
       st_trace := [OpExists (V1.normalizedPath cwd (V1.host req));
                    OpExists (V1.rootIndexPath cwd)] |}) /\
   statusCode (st_res (snd (run (V1.handler req) w res))) = 404 /\
   exists page,
     sent (st_res (snd (run (V1.handler req) w res))) = Some (BodyText page) /\
     includes page
       ("<h2>" +:+ ("域名 " +:+ dquote +:+ V1.host req +:+ dquote +:+ " 的页面尚未创建")
               +:+ "</h2>") = true /\
     includes page (V1.host req) = true).
Proof.
  intros Hok Hsus Hcwd Hwf Hex.
  unfold run. rewrite handler_validated by assumption. unfold try_catch.
  rewrite (serve_site_run req _ cwd)
    by (try assumption; now apply validated_host_contained).
  cbv zeta. rewrite Hex. split.
  - intros content Hurl Hroot Hread. rewrite Hroot, Hurl. cbn [andb].
    rewrite String.eqb_refl, sendHtml_run, Hread. repeat split.
  - intros Hno.
    assert (Hcond : fs_existsSync w (V1.rootIndexPath cwd) && String.eqb (url req) "/"
                    = false).
    { destruct Hno as [Hurl | ->]; [|reflexivity].
      apply String.eqb_neq in Hurl. rewrite Hurl. apply andb_false_r. }
    assert (Hm : V1.msg_no_site (V1.host req)
                 = "域名 " +:+ dquote +:+ V1.host req +:+ dquote +:+ " 的页面尚未创建")
      by reflexivity.
    rewrite Hcond, send404_run. cbn [snd st_res V1.res_404 statusCode sent].
    split; [reflexivity|]. split; [reflexivity|].
    eexists. split; [reflexivity|]. rewrite Hm. split.
    + apply page_shows_message.
    + apply (page_shows_interpolation ("域名 " +:+ dquote) (V1.host req)
               (dquote +:+ " 的页面尚未创建")).
Qed.

Lemma missing_site_fallback_witness :
  run (V1.handler (request_for "example.com" "/")) landing_only
      (fresh_res (request_for "example.com" "/"))
  = (Returned tt,
     {| st_res := V1.res_html 200 landing_page (fresh_res (request_for "example.com" "/"));
        st_trace := [OpExists "/var/task/example.com/index.html";
                     OpExists "/var/task/index.html";
                     OpRead "/var/task/index.html"] |}) /\
  exists page,
    sent (st_res (snd (run (V1.handler (request_for "example.com" "/about")) landing_only
                           (fresh_res (request_for "example.com" "/about")))))
    = Some (BodyText page) /\
    includes page
      ("<h2>" +:+ ("域名 " +:+ dquote +:+ V1.host (request_for "example.com" "/about")
                     +:+ dquote +:+ " 的页面尚未创建") +:+ "</h2>") = true /\
    includes page (V1.host (request_for "example.com" "/about")) = true.
Proof.
  split.
  - apply (missing_site_fallback (request_for "example.com" "/") landing_only _ "/var/task");
      reflexivity.
  - apply (missing_site_fallback (request_for "example.com" "/about") landing_only _
             "/var/task"); try reflexivity.
    left. discriminate.
Defined.

(** C5, as stated, fails: for the validated host [example.com] without site
    and the URL [/], the root index file exists but may not be read, and the
    answer is the 500 JSON error of [sendHtml], not 200 with its content. *)
Lemma unreadable_landing_is_500 :
  V1.host_rejected (V1.host (request_for "example.com" "/")) = false /\
  V1.host_suspicious (V1.host (request_for "example.com" "/")) = false /\
  fs_existsSync unreadable_landing (V1.normalizedPath "/var/task" "example.com") = false /\
  url (request_for "example.com" "/") = "/" /\
  fs_existsSync unreadable_landing (V1.rootIndexPath "/var/task") = true /\
  run (V1.handler (request_for "example.com" "/")) unreadable_landing
      (fresh_res (request_for "example.com" "/"))
  = (Returned tt,
     {| st_res := V1.res_error 500 "无法读取页面内容" (now unreadable_landing)
                    (fresh_res (request_for "example.com" "/"));
        st_trace := [OpExists "/var/task/example.com/index.html";
                     OpExists "/var/task/index.html";
                     OpRead "/var/task/index.html"] |}) /\
  statusCode (st_res (snd (run (V1.handler (request_for "example.com" "/"))
                               unreadable_landing
                               (fresh_res (request_for "example.com" "/"))))) <> 200.
Proof. repeat split; try reflexivity. discriminate. Qed.

(** ** Every run ends with one sender call *)

Lemma serve_site_escape (req : Request) (h cwd : string) (w : World) (st : State) :
  w_cwd w = Returned cwd ->
  startsWith (V1.normalizedPath cwd h) cwd = false ->
  V1.serve_site req h w st = V1.send404 "非法路径访问" w st.
Proof.
  intros Hcwd Hout. unfold V1.serve_site, bind, process_cwd.
  rewrite Hcwd. cbv zeta.
  change (normalize (join [join [cwd; h]; "index.html"])) with (V1.normalizedPath cwd h).
  now rewrite Hout.
Qed.

Lemma caught_run (e : JsError) (w : World) (st : State) :
  V1.on_error e w st =
  (Returned tt, {| st_res := V1.apply_sender (V1.caught e) (now w) (st_res st);
                   st_trace := st_trace st |}).
Proof.
  rewrite on_error_run. unfold V1.caught.
  destruct (code_is e "ENOENT"); [reflexivity|].
  destruct (code_is e "EACCES"); reflexivity.
Qed.

Lemma caught_validated (h : string) (e : JsError) : V1.validated_outcome h (V1.caught e).
Proof.
  unfold V1.caught. destruct (code_is e "ENOENT"); [constructor|].
  destruct (code_is e "EACCES"); constructor.
Qed.

(** The [try] and [catch] blocks together: whatever the world answers, the
    run returns, and its effect on the response object and on the log does
    not depend on the state it starts from. *)
Lemma validated_summary (req : Request) (h : string) (w : World) :
  exists k T,
    (forall st,
        try_catch (V1.serve_site req h) V1.on_error w st =
        (Returned tt, {| st_res := V1.apply_sender k (now w) (st_res st);
                         st_trace := st_trace st ++ T |})) /\
    V1.validated_outcome h k.
Proof.
  unfold try_catch.
  destruct (w_cwd w) as [cwd|e] eqn:Hcwd.
  2:{ exists (V1.caught e), []. split; [|apply caught_validated].
      intros st. rewrite (serve_site_cwd_throws req h e) by assumption.
      now rewrite caught_run, app_nil_r. }
  destruct (startsWith (V1.normalizedPath cwd h) cwd) eqn:Hin.
  2:{ exists (V1.Send404 "非法路径访问"), []. split; [|constructor].
      intros st. rewrite (serve_site_escape req h cwd) by assumption.
      now rewrite send404_run, app_nil_r. }
  pose proof (fun st => serve_site_run req h cwd w st Hcwd Hin) as Hrun.
  cbv zeta in Hrun.
  destruct (fs_existsSync w (V1.normalizedPath cwd h)).
  - destruct (fs_statSync w (V1.normalizedPath cwd h)) as [stats|e].
    + destruct (isFile stats).
      * destruct (fs_readFileSync w (V1.normalizedPath cwd h)) as [content|e] eqn:Hread.
        -- exists (V1.SendHtml 200 content),
             [OpExists (V1.normalizedPath cwd h); OpStat (V1.normalizedPath cwd h);
              OpRead (V1.normalizedPath cwd h)].
           split; [|constructor]. intros st.
           rewrite Hrun, sendHtml_run, Hread. cbn [st_res st_trace].
           now rewrite <- !app_assoc.
        -- exists (V1.SendError 500 "无法读取页面内容"),
             [OpExists (V1.normalizedPath cwd h); OpStat (V1.normalizedPath cwd h);
              OpRead (V1.normalizedPath cwd h)].
           split; [|constructor]. intros st.
           rewrite Hrun, sendHtml_run, Hread. cbn [st_res st_trace].
           now rewrite <- !app_assoc.
      * exists (V1.Send404 "资源类型错误"),
          [OpExists (V1.normalizedPath cwd h); OpStat (V1.normalizedPath cwd h)].
        split; [|constructor]. intros st.
        rewrite Hrun, send404_run. cbn [st_res st_trace]. now rewrite <- !app_assoc.
    + exists (V1.caught e),
        [OpExists (V1.normalizedPath cwd h); OpStat (V1.normalizedPath cwd h)].
      split; [|apply caught_validated]. intros st.
      rewrite Hrun, caught_run. cbn [st_res st_trace]. now rewrite <- !app_assoc.
  - destruct (fs_existsSync w (V1.rootIndexPath cwd) && String.eqb (url req) "/").
    + destruct (fs_readFileSync w (V1.rootIndexPath cwd)) as [content|e] eqn:Hread.
      * exists (V1.SendHtml 200 content),
          [OpExists (V1.normalizedPath cwd h); OpExists (V1.rootIndexPath cwd);
           OpRead (V1.rootIndexPath cwd)].
        split; [|constructor]. intros st.
        rewrite Hrun, sendHtml_run, Hread. cbn [st_res st_trace].
        now rewrite <- !app_assoc.
      * exists (V1.SendError 500 "无法读取页面内容"),
          [OpExists (V1.normalizedPath cwd h); OpExists (V1.rootIndexPath cwd);
           OpRead (V1.rootIndexPath cwd)].
        split; [|constructor]. intros st.
        rewrite Hrun, sendHtml_run, Hread. cbn [st_res st_trace].
        now rewrite <- !app_assoc.
    + exists (V1.Send404 (V1.msg_no_site h)),
        [OpExists (V1.normalizedPath cwd h); OpExists (V1.rootIndexPath cwd)].
      split; [|constructor]. intros st.
      rewrite Hrun, send404_run. cbn [st_res st_trace]. now rewrite <- !app_assoc.
Qed.

Lemma handler_summary (req : Request) (w : World) :
  exists k T,
    (forall st,
        V1.handler req w st =
        (Returned tt, {| st_res := V1.apply_sender k (now w) (st_res st);
                         st_trace := st_trace st ++ T |})) /\
    (V1.host_rejected (V1.host req) = true ->
     k = V1.Send404 (V1.msg_invalid (V1.host req)) /\ T = []) /\
    (V1.host_rejected (V1.host req) = false ->
     V1.host_suspicious (V1.host req) = true ->
     k = V1.Send404 "非法请求" /\ T = []) /\
    (V1.host_rejected (V1.host req) = false ->
     V1.host_suspicious (V1.host req) = false ->
     V1.validated_outcome (V1.host req) k).
Proof.
  destruct (V1.host_rejected (V1.host req)) eqn:Hrej.
  { exists (V1.Send404 (V1.msg_invalid (V1.host req))), [].
    split; [|repeat split; discriminate].
    intros st. rewrite handler_rejected by assumption.
    now rewrite send404_run, app_nil_r. }
  destruct (V1.host_suspicious (V1.host req)) eqn:Hsus.
  { exists (V1.Send404 "非法请求"), [].
    split; [|repeat split; discriminate].
    intros st. rewrite handler_suspicious by assumption.
    now rewrite send404_run, app_nil_r. }
  destruct (validated_summary req (V1.host req) w) as (k & T & Hrun & Hk).
  exists k, T. split; [|repeat split; try discriminate; auto].
  intros st. rewrite handler_validated by assumption. apply Hrun.
Qed.

(** ** The second variant, step by step *)

Lemma v2_handler_rejected (req : Request) (w : World) (st : State) :
  negb (truthy (V2.host req)) || negb (regex_test true V2.host_pattern (V2.host req)) = true ->
  V2.handler req w st =
  (Returned tt, {| st_res := V2.res_text 400 "无效的域名请求。" (st_res st);
                   st_trace := st_trace st |}).
Proof. unfold V2.handler. now intros ->. Qed.

Lemma v2_handler_lookup (req : Request) (cwd : string) (w : World) (st : State) :
  regex_test true V2.host_pattern (V2.host req) = true ->
  w_cwd w = Returned cwd ->
  exists o st' rest,
    V2.handler req w st = (o, st') /\
    st_trace st' = st_trace st ++ OpExists (V2.filePath cwd (V2.host req)) :: rest.
Proof.
  intros Hre Hcwd. unfold V2.handler. rewrite Hre.
  destruct (v2_host_pattern_shape _ Hre) as [Hne _].
  assert (Ht : truthy (V2.host req) = true)
    by (unfold truthy; apply negb_true_iff; now apply String.eqb_neq).
  rewrite Ht. cbn [negb orb].
  unfold bind, process_cwd, existsSync, bind, log_op. rewrite Hcwd.
  fold (V2.filePath cwd (V2.host req)). cbn [st_res st_trace].
  destruct (fs_existsSync w (V2.filePath cwd (V2.host req))).
  - unfold try_catch, readFileSync, bind, log_op. cbn [st_res st_trace].
    destruct (fs_readFileSync w (V2.filePath cwd (V2.host req)));
      do 3 eexists; (split; [reflexivity|]); cbn [st_trace];
      rewrite <- app_assoc; reflexivity.
  - do 3 eexists. split; [reflexivity|]. reflexivity.
Qed.

(** ** Rejected and suspicious hosts *)

(** C2, as the code has it.  In the first variant a request whose host
    candidate contains [..], [/] or [\] is answered with the 404 page
    without any filesystem call.  The second variant has no blacklist: a
    candidate that contains [/] or [\] fails its pattern and is answered
    with status 400 without filesystem call, and every candidate its pattern
    accepts is looked up with [existsSync]. *)
Theorem suspicious_host_no_filesystem (req : Request) (w : World) (res : Res) :
  (V1.host_suspicious (V1.host req) = true ->
   exists message,
     run (V1.handler req) w res =
     (Returned tt, {| st_res := V1.res_404 message res; st_trace := [] |}) /\
     statusCode (V1.res_404 message res) = 404) /\
  (includes (V2.host req) "/" = true \/ includes (V2.host req) backslash = true ->
   run (V2.handler req) w res =
   (Returned tt, {| st_res := V2.res_text 400 "无效的域名请求。" res; st_trace := [] |})) /\
  (forall cwd,
      regex_test true V2.host_pattern (V2.host req) = true ->
      w_cwd w = Returned cwd ->
      exists o st rest,
        run (V2.handler req) w res = (o, st) /\
        st_trace st = OpExists (V2.filePath cwd (V2.host req)) :: rest).
Proof.
  split; [|split].
  - intros Hsus. unfold run.
    destruct (V1.host_rejected (V1.host req)) eqn:Hrej.
    + exists (V1.msg_invalid (V1.host req)).
      rewrite handler_rejected by assumption. now rewrite send404_run.
    + exists "非法请求".
      rewrite handler_suspicious by assumption. now rewrite send404_run.
  - intros Hsep. unfold run. apply v2_handler_rejected.
    destruct (regex_test true V2.host_pattern (V2.host req)) eqn:Hre;
      [|apply orb_true_r].
    destruct (v2_host_pattern_shape _ Hre) as [_ Hall].
    destruct (host_chars_no_separator _ Hall) as [H1 H2].
    destruct Hsep; congruence.
  - intros cwd Hre Hcwd. unfold run.
    destruct (v2_handler_lookup req cwd w {| st_res := res; st_trace := [] |} Hre Hcwd)
      as (o & st' & rest & Hrun & Htrace).
    exists o, st', rest. split; assumption.
Qed.

Lemma suspicious_host_no_filesystem_witness :
  (exists message,
      run (V1.handler (request_for "a..com" "/")) dotted_site
          (fresh_res (request_for "a..com" "/"))
      = (Returned tt,
         {| st_res := V1.res_404 message (fresh_res (request_for "a..com" "/"));
            st_trace := [] |}) /\
      statusCode (V1.res_404 message (fresh_res (request_for "a..com" "/"))) = 404) /\
  run (V2.handler (request_for "evil.com/../x" "/")) dotted_site
      (fresh_res (request_for "evil.com/../x" "/"))
  = (Returned tt,
     {| st_res := V2.res_text 400 "无效的域名请求。"
                    (fresh_res (request_for "evil.com/../x" "/"));
        st_trace := [] |}) /\
  (exists o st rest,
      run (V2.handler (request_for "a..com" "/")) dotted_site
          (fresh_res (request_for "a..com" "/")) = (o, st) /\
      st_trace st = OpExists (V2.filePath "/var/task" (V2.host (request_for "a..com" "/")))
                             :: rest).
Proof.
  split; [|split].
  - apply (suspicious_host_no_filesystem (request_for "a..com" "/")). reflexivity.
  - apply (suspicious_host_no_filesystem (request_for "evil.com/../x" "/")).
    left. reflexivity.
  - apply (suspicious_host_no_filesystem (request_for "a..com" "/")); reflexivity.
Defined.

(** C2, as stated, fails on the second variant: the candidate [a..com]
    contains [..], yet the handler checks the filesystem, reads the file and
    answers 200. *)
Lemma v2_double_dot_reaches_filesystem :
  includes (V2.host (request_for "a..com" "/")) ".." = true /\
  run (V2.handler (request_for "a..com" "/")) dotted_site
      (fresh_res (request_for "a..com" "/"))
  = (Returned tt,
     {| st_res :=
          {| res_req := Some (request_for "a..com" "/"); statusCode := 200;
             res_headers := {[ "Content-Type" := "text/html; charset=utf-8" ]};
             sent := Some (BodyText site_page) |};
        st_trace := [OpExists "/var/task/a..com/index.html";
                     OpRead "/var/task/a..com/index.html"] |}).
Proof. split; reflexivity. Qed.

(** C6, as the code has it.  In the first variant a request whose host
    candidate is empty or fails the validation pattern gets the 404 HTML page
    with the message "invalid domain" followed by the candidate, and a
    candidate that passes the pattern and is caught by the blacklist gets
    the 404 page with the generic message; in the second variant a candidate
    that is empty or fails the pattern gets status 400 with a plain text. *)
Theorem invalid_host_response (req : Request) (w : World) (res : Res) :
  (V1.host req = EmptyString \/ regex_test true V1.host_pattern (V1.host req) = false ->
   run (V1.handler req) w res =
   (Returned tt, {| st_res := V1.res_404 (V1.msg_invalid (V1.host req)) res;
                    st_trace := [] |}) /\
   statusCode (V1.res_404 (V1.msg_invalid (V1.host req)) res) = 404 /\
   res_headers (V1.res_404 (V1.msg_invalid (V1.host req)) res) !! "Content-Type"
   = Some "text/html; charset=utf-8") /\
  (V1.host_rejected (V1.host req) = false ->
   V1.host_suspicious (V1.host req) = true ->
   run (V1.handler req) w res =
   (Returned tt, {| st_res := V1.res_404 "非法请求" res; st_trace := [] |})) /\
  (V2.host req = EmptyString \/ regex_test true V2.host_pattern (V2.host req) = false ->
   run (V2.handler req) w res =
   (Returned tt, {| st_res := V2.res_text 400 "无效的域名请求。" res; st_trace := [] |}) /\
   statusCode (V2.res_text 400 "无效的域名请求。" res) = 400).
Proof.
  split; [|split].
  - intros Hbad. split; [|split; [reflexivity | apply lookup_insert_eq]].
    unfold run. rewrite handler_rejected; [now rewrite send404_run|].
    unfold V1.host_rejected. destruct Hbad as [-> | ->]; [reflexivity | apply orb_true_r].
  - intros Hrej Hsus. unfold run.
    rewrite handler_suspicious by assumption. now rewrite send404_run.
  - intros Hbad. split; [|reflexivity].
    unfold run. apply v2_handler_rejected.
    destruct Hbad as [-> | ->]; [reflexivity | apply orb_true_r].
Qed.

Lemma invalid_host_response_witness :
  (run (V1.handler (request_for "not a domain" "/")) one_site
       (fresh_res (request_for "not a domain" "/"))
   = (Returned tt,
      {| st_res := V1.res_404 (V1.msg_invalid "not a domain")
                     (fresh_res (request_for "not a domain" "/"));
         st_trace := [] |})) /\
  (run (V1.handler (request_for "a..com" "/")) one_site
       (fresh_res (request_for "a..com" "/"))
   = (Returned tt,
      {| st_res := V1.res_404 "非法请求" (fresh_res (request_for "a..com" "/"));
         st_trace := [] |})) /\
  (run (V2.handler (request_for "not a domain" "/")) one_site
       (fresh_res (request_for "not a domain" "/"))
   = (Returned tt,
      {| st_res := V2.res_text 400 "无效的域名请求。"
                     (fresh_res (request_for "not a domain" "/"));
         st_trace := [] |})).
Proof.
  split; [|split].
  - apply (invalid_host_response (request_for "not a domain" "/")). right. reflexivity.
  - apply (invalid_host_response (request_for "a..com" "/")); reflexivity.
  - apply (invalid_host_response (request_for "not a domain" "/")). right. reflexivity.
Defined.

(** C6, as stated, fails on the second variant: a candidate that fails the
    pattern is answered with status 400, not 404. *)
Lemma v2_invalid_host_is_400 :
  regex_test true V2.host_pattern (V2.host (request_for "not a domain" "/")) = false /\
  statusCode (st_res (snd (run (V2.handler (request_for "not a domain" "/")) one_site
                               (fresh_res (request_for "not a domain" "/"))))) = 400 /\
  statusCode (st_res (snd (run (V2.handler (request_for "not a domain" "/")) one_site
                               (fresh_res (request_for "not a domain" "/"))))) <> 404.
Proof. split; [reflexivity|]. split; [reflexivity | discriminate]. Qed.

(** ** What a 404 page shows *)




(** ** The [www.] prefix *)

Lemma handler_same_host (req1 req2 : Request) (w : World) (st : State) :
  V1.host req1 = V1.host req2 -> url req1 = url req2 ->
  V1.handler req1 w st = V1.handler req2 w st.
Proof.
  intros Hh Hu. unfold V1.handler, V1.serve_site. now rewrite Hh, Hu.
Qed.

(** C7, as the code has it, for the first variant.  Two requests for the
    same URL, one whose raw host (the forwarded host, else the [Host]
    header) is [www.example.com] and one whose raw host is [example.com],
    have the same host candidate [example.com] and
    the same resolved path; over the same world both runs make the same
    filesystem calls and end with the same sender call, each on its own
    response object: same status, same headers (from equal headers) and the
    same body, except that a 404 page shows the [Host] header of the request
    attached to the response object, so that two 404 pages are equal when
    those headers are. *)
Theorem www_prefix_same_site (req1 req2 : Request) (w : World) (res1 res2 : Res) :
  V1.rawHost req1 = "www.example.com" ->
  V1.rawHost req2 = "example.com" ->
  url req1 = url req2 ->
  V1.host req1 = "example.com" /\ V1.host req2 = "example.com" /\
  (forall cwd, V1.normalizedPath cwd (V1.host req1) = V1.normalizedPath cwd (V1.host req2)) /\
  exists k T,
    run (V1.handler req1) w res1 =
    (Returned tt, {| st_res := V1.apply_sender k (now w) res1; st_trace := T |}) /\
    run (V1.handler req2) w res2 =
    (Returned tt, {| st_res := V1.apply_sender k (now w) res2; st_trace := T |}) /\
    statusCode (V1.apply_sender k (now w) res1) = statusCode (V1.apply_sender k (now w) res2) /\
    (res_headers res1 = res_headers res2 ->
     res_headers (V1.apply_sender k (now w) res1)
     = res_headers (V1.apply_sender k (now w) res2)) /\
    ((forall message, k <> V1.Send404 message) ->
     sent (V1.apply_sender k (now w) res1) = sent (V1.apply_sender k (now w) res2)) /\
    (V1.domain_line res1 = V1.domain_line res2 ->
     sent (V1.apply_sender k (now w) res1) = sent (V1.apply_sender k (now w) res2)).
Proof.
  intros H1 H2 Hu.
  assert (Hh1 : V1.host req1 = "example.com") by (unfold V1.host; now rewrite H1).
  assert (Hh2 : V1.host req2 = "example.com") by (unfold V1.host; now rewrite H2).
  split; [exact Hh1|]. split; [exact Hh2|].
  split; [intros cwd; now rewrite Hh1, Hh2|].
  destruct (handler_summary req1 w) as (k & T & Hrun & _).
  exists k, T. unfold run.
  rewrite <- (handler_same_host req1 req2) by congruence.
  rewrite !Hrun. cbn [st_res st_trace app].
  split; [reflexivity|]. split; [reflexivity|].
  split; [now destruct k|]. split; [|split].
  - intros Hhd. destruct k; cbn; now rewrite Hhd.
  - intros Hk. destruct k as [message| |]; [now destruct (Hk message) | reflexivity..].
  - intros Hd. destruct k; cbn; [now rewrite Hd | reflexivity..].
Qed.

Lemma www_prefix_same_site_witness :
  V1.host (request_for "www.example.com" "/") = "example.com" /\
  V1.host (forwarded_request "example.com" "edge.internal" "/") = "example.com" /\
  exists k T,
    run (V1.handler (request_for "www.example.com" "/")) one_site
        (fresh_res (request_for "www.example.com" "/"))
    = (Returned tt,
       {| st_res := V1.apply_sender k (now one_site)
                      (fresh_res (request_for "www.example.com" "/"));
          st_trace := T |}) /\
    run (V1.handler (forwarded_request "example.com" "edge.internal" "/")) one_site
        (fresh_res (forwarded_request "example.com" "edge.internal" "/"))
    = (Returned tt,
       {| st_res := V1.apply_sender k (now one_site)
                      (fresh_res (forwarded_request "example.com" "edge.internal" "/"));
          st_trace := T |}).
Proof.
  destruct (www_prefix_same_site
              (request_for "www.example.com" "/")
              (forwarded_request "example.com" "edge.internal" "/")
              one_site
              (fresh_res (request_for "www.example.com" "/"))
              (fresh_res (forwarded_request "example.com" "edge.internal" "/")))
    as (Ha & Hb & _ & k & T & Hr1 & Hr2 & _); try reflexivity.
  split; [exact Ha|]. split; [exact Hb|]. exists k, T. split; assumption.
Defined.

(** C7, as stated, fails on the first variant: without a site for
    [example.com], the requests with [Host: www.example.com] and with
    [Host: example.com] get two different 404 pages, each showing its own
    [Host] header. *)
Lemma www_not_found_pages_differ :
  run (V1.handler (request_for "www.example.com" "/")) (deployment [])
      (fresh_res (request_for "www.example.com" "/"))
  = (Returned tt,
     {| st_res := V1.res_404 (V1.msg_no_site "example.com")
                    (fresh_res (request_for "www.example.com" "/"));
        st_trace := [OpExists "/var/task/example.com/index.html";
                     OpExists "/var/task/index.html"] |}) /\
  run (V1.handler (request_for "example.com" "/")) (deployment [])
      (fresh_res (request_for "example.com" "/"))
  = (Returned tt,
     {| st_res := V1.res_404 (V1.msg_no_site "example.com")
                    (fresh_res (request_for "example.com" "/"));
        st_trace := [OpExists "/var/task/example.com/index.html";
                     OpExists "/var/task/index.html"] |}) /\
  sent (V1.res_404 (V1.msg_no_site "example.com")
          (fresh_res (request_for "www.example.com" "/")))
  <> sent (V1.res_404 (V1.msg_no_site "example.com")
             (fresh_res (request_for "example.com" "/"))).
Proof.
  split; [reflexivity|]. split; [reflexivity|].
  intros E.
  apply (f_equal (fun body => match body with
                              | Some (BodyText page) => includes page "www.example.com"
                              | _ => false
                              end)) in E.
  vm_compute in E. discriminate.
Qed.

(** The second variant strips nothing, its pattern being a string: with the
    site of [example.com] in place, [www.example.com] is looked up under its
    own name and not found. *)
Lemma v2_www_not_stripped :
  V2.host (request_for "www.example.com" "/") = "www.example.com" /\
  run (V2.handler (request_for "www.example.com" "/")) one_site
      (fresh_res (request_for "www.example.com" "/"))
  = (Returned tt,
     {| st_res := V2.res_text 404 (V2.msg_no_site "www.example.com")
                    (fresh_res (request_for "www.example.com" "/"));
        st_trace := [OpExists "/var/task/www.example.com/index.html"] |}) /\
  statusCode (st_res (snd (run (V2.handler (request_for "example.com" "/")) one_site
                               (fresh_res (request_for "example.com" "/"))))) = 200.
Proof. repeat split; reflexivity. Qed.

(** ** Exceptions *)

(** C8.  Every run of the handler returns: nothing is thrown to the caller.
    An exception thrown in the [try] block ([process.cwd()] or [statSync])
    is mapped by its code: [ENOENT] to the 404 page, [EACCES] to a 403 JSON
    answer, anything else to a 500 JSON answer.  A failing read is caught in
    [sendHtml] and answered with a 500 JSON answer, whatever its code. *)
Theorem exceptions_are_caught (req : Request) (w : World) (res : Res) :
  (exists st, run (V1.handler req) w res = (Returned tt, st)) /\
  (forall e st0 st1,
      V1.host_rejected (V1.host req) = false ->
      V1.host_suspicious (V1.host req) = false ->
      V1.serve_site req (V1.host req) w st0 = (Thrown e, st1) ->
      V1.handler req w st0 =
      (Returned tt, {| st_res := V1.apply_sender (V1.caught e) (now w) (st_res st1);
                       st_trace := st_trace st1 |})) /\
  (forall e,
      (code_is e "ENOENT" = true -> V1.caught e = V1.Send404 "请求的资源不存在") /\
      (code_is e "ENOENT" = false -> code_is e "EACCES" = true ->
       V1.caught e = V1.SendError 403 "没有访问权限") /\
      (code_is e "ENOENT" = false -> code_is e "EACCES" = false ->
       V1.caught e = V1.SendError 500 "服务器内部错误")) /\
  (forall p c e st0,
      fs_readFileSync w p = Thrown e ->
      V1.sendHtml p c w st0 =
      (Returned tt,
       {| st_res := V1.res_error 500 "无法读取页面内容" (now w) (st_res st0);
          st_trace := st_trace st0 ++ [OpRead p] |})).
Proof.
  split; [|split; [|split]].
  - destruct (handler_summary req w) as (k & T & Hrun & _).
    unfold run. rewrite Hrun. eauto.
  - intros e st0 st1 Hrej Hsus Hthrown.
    rewrite handler_validated by assumption. unfold try_catch.
    rewrite Hthrown. apply caught_run.
  - intros e. unfold V1.caught. repeat split.
    + now intros ->.
    + now intros -> ->.
    + now intros -> ->.
  - intros p c e st0 Hread. now rewrite sendHtml_run, Hread.
Qed.

Lemma exceptions_are_caught_witness :
  run (V1.handler (request_for "example.com" "/")) locked_site
      (fresh_res (request_for "example.com" "/"))
  = (Returned tt,
     {| st_res := V1.res_error 403 "没有访问权限" (now locked_site)
                    (fresh_res (request_for "example.com" "/"));
        st_trace := [OpExists "/var/task/example.com/index.html";
                     OpStat "/var/task/example.com/index.html"] |}) /\
  run (V1.handler (request_for "example.com" "/")) no_cwd
      (fresh_res (request_for "example.com" "/"))
  = (Returned tt,
     {| st_res := V1.res_404 "请求的资源不存在" (fresh_res (request_for "example.com" "/"));
        st_trace := [] |}) /\
  V1.sendHtml "/var/task/example.com/index.html" 200 vanishing_site
    {| st_res := fresh_res (request_for "example.com" "/"); st_trace := [] |}
  = (Returned tt,
     {| st_res := V1.res_error 500 "无法读取页面内容" (now vanishing_site)
                    (fresh_res (request_for "example.com" "/"));
        st_trace := [OpRead "/var/task/example.com/index.html"] |}).
Proof.
  split; [|split].
  - destruct (exceptions_are_caught (request_for "example.com" "/") locked_site
                (fresh_res (request_for "example.com" "/"))) as (_ & H & _ & _).
    apply (H eacces
             {| st_res := fresh_res (request_for "example.com" "/"); st_trace := [] |}
             {| st_res := fresh_res (request_for "example.com" "/");
                st_trace := [OpExists "/var/task/example.com/index.html";
                             OpStat "/var/task/example.com/index.html"] |});
      reflexivity.
  - destruct (exceptions_are_caught (request_for "example.com" "/") no_cwd
                (fresh_res (request_for "example.com" "/"))) as (_ & H & _ & _).
    apply (H enoent
             {| st_res := fresh_res (request_for "example.com" "/"); st_trace := [] |}
             {| st_res := fresh_res (request_for "example.com" "/"); st_trace := [] |});
      reflexivity.
  - destruct (exceptions_are_caught (request_for "example.com" "/") vanishing_site
                (fresh_res (request_for "example.com" "/"))) as (_ & _ & _ & H).
    apply (H "/var/task/example.com/index.html" 200 enoent). reflexivity.
Defined.

(** * Further properties of the two handlers *)

(** ** What the two host patterns accept, exactly *)

Lemma forall_star_set (ic : bool) (cs : list cset_item) (s : string) :
  string_forall (in_cset ic cs) s = true -> Matches ic (RStar (RSet cs)) s.
Proof.
  induction s as [|c s IH]; cbn [string_forall]; intros H; [constructor|].
  apply andb_true_iff in H as [Hc Hs].
  change (String c s) with (String c EmptyString +:+ s).
  constructor; [now constructor | now apply IH].
Qed.

Lemma forall_at_least_set (ic : bool) (cs : list cset_item) (n : nat) :
  forall s, string_forall (in_cset ic cs) s = true -> n <= String.length s ->
            Matches ic (RAtLeast n (RSet cs)) s.
Proof.
  induction n as [|n IH]; intros s Hall Hlen; cbn [RAtLeast].
  - now apply forall_star_set.
  - destruct s as [|c s]; cbn [String.length string_forall] in *; [lia|].
    apply andb_true_iff in Hall as [Hc Hs].
    change (String c s) with (String c EmptyString +:+ s).
    constructor; [now constructor | apply IH; [assumption | lia]].
Qed.

Lemma dot_class_is_dot :
  forall c, in_cset true [CChar "."] c = true -> c = "."%char.
Proof. by_cases_on_char. Qed.

Lemma v1_host_pattern_iff (h : string) :
  regex_test true V1.host_pattern h = true <->
  exists c mid tld,
    h = String c (mid +:+ "." +:+ tld) /\
    in_cset true [CRange "a" "z"; CRange "0" "9"] c = true /\
    string_forall
      (in_cset true [CRange "a" "z"; CRange "0" "9"; CChar "."; CChar "-"]) mid = true /\
    string_forall (in_cset true [CRange "a" "z"]) tld = true /\
    2 <= String.length tld.
Proof.
  rewrite regex_test_spec. unfold V1.host_pattern. split.
  - intros H.
    inversion H as [| | ? ? s1 s2 H1 H2 | | | |]; subst; clear H.
    inversion H1 as [| ? c Hc | | | | |]; subst; clear H1.
    inversion H2 as [| | ? ? s3 s4 H3 H4 | | | |]; subst; clear H2.
    inversion H4 as [| | ? ? s5 s6 H5 H6 | | | |]; subst; clear H4.
    inversion H5 as [| ? d Hd | | | | |]; subst; clear H5.
    apply dot_class_is_dot in Hd as ->.
    apply (star_set_forall true _ _)
      with (cs := [CRange "a" "z"; CRange "0" "9"; CChar "."; CChar "-"]) in H3;
      [|reflexivity].
    apply (at_least_set_forall true [CRange "a" "z"] 2) in H6 as [H6 Hlen].
    exists c, s3, s6. repeat split; assumption.
  - intros (c & mid & tld & -> & Hc & Hmid & Htld & Hlen).
    change (String c (mid +:+ "." +:+ tld))
      with (String c EmptyString +:+ (mid +:+ (String "." EmptyString +:+ tld))).
    constructor; [now constructor|].
    constructor; [now apply forall_star_set|].
    constructor; [now constructor|].
    now apply (forall_at_least_set true [CRange "a" "z"] 2).
Qed.

(** X1.  The first pattern accepts exactly the strings made of a first
    letter or digit, then any letters, digits, dots and hyphens, then a dot
    and a last label of at least two letters; letters in either case. *)
Theorem v1_host_pattern_exact (h : string) :
  regex_test true V1.host_pattern h = true <->
  exists c mid tld,
    h = String c (mid +:+ "." +:+ tld) /\
    in_cset true [CRange "a" "z"; CRange "0" "9"] c = true /\
    string_forall
      (in_cset true [CRange "a" "z"; CRange "0" "9"; CChar "."; CChar "-"]) mid = true /\
    string_forall (in_cset true [CRange "a" "z"]) tld = true /\
    2 <= String.length tld.
Proof. apply v1_host_pattern_iff. Qed.

Lemma v1_host_pattern_exact_witness :
  regex_test true V1.host_pattern "sub.Example-1.co" = true.
Proof.
  apply v1_host_pattern_exact.
  exists "s"%char, "ub.Example-1", "co". repeat split; reflexivity.
Defined.

Lemma v2_host_pattern_iff (h : string) :
  regex_test true V2.host_pattern h = true <->
  exists c mid tld,
    h = String c (mid +:+ "." +:+ tld) /\
    in_cset true [CRange "a" "z"; CRange "0" "9"; CChar "."; CChar "-"] c = true /\
    string_forall
      (in_cset true [CRange "a" "z"; CRange "0" "9"; CChar "."; CChar "-"]) mid = true /\
    string_forall (in_cset true [CRange "a" "z"]) tld = true /\
    2 <= String.length tld.
Proof.
  rewrite regex_test_spec. unfold V2.host_pattern, RPlus. split.
  - intros H.
    inversion H as [| | ? ? s1 s2 H1 H2 | | | |]; subst; clear H.
    inversion H1 as [| | ? ? s3 s4 H3 H4 | | | |]; subst; clear H1.
    inversion H3 as [| ? c Hc | | | | |]; subst; clear H3.
    inversion H2 as [| | ? ? s5 s6 H5 H6 | | | |]; subst; clear H2.
    inversion H5 as [| ? d Hd | | | | |]; subst; clear H5.
    apply dot_class_is_dot in Hd as ->.
    apply (star_set_forall true _ _)
      with (cs := [CRange "a" "z"; CRange "0" "9"; CChar "."; CChar "-"]) in H4;
      [|reflexivity].
    apply (at_least_set_forall true [CRange "a" "z"] 2) in H6 as [H6 Hlen].
    exists c, s4, s6. split; [reflexivity | repeat split; assumption].
  - intros (c & mid & tld & -> & Hc & Hmid & Htld & Hlen).
    change (String c (mid +:+ "." +:+ tld))
      with ((String c EmptyString +:+ mid) +:+ (String "." EmptyString +:+ tld)).
    constructor.
    + constructor; [now constructor | now apply forall_star_set].
    + constructor; [now constructor|].
      now apply (forall_at_least_set true [CRange "a" "z"] 2).
Qed.

(** X2.  The first pattern is the second one restricted to hosts that start
    with a letter or digit: whatever the first variant accepts the second
    accepts too, and a host the second accepts is accepted by the first
    exactly when its first character is a letter or digit. *)
Theorem v1_pattern_refines_v2 (h : string) :
  regex_test true V1.host_pattern h = true <->
  regex_test true V2.host_pattern h = true /\
  exists c h', h = String c h' /\
               in_cset true [CRange "a" "z"; CRange "0" "9"] c = true.
Proof.
  rewrite v1_host_pattern_iff, v2_host_pattern_iff. split.
  - intros (c & mid & tld & -> & Hc & Hmid & Htld & Hlen). split.
    + exists c, mid, tld. repeat split; try assumption.
      now apply alnum_host_char.
    + eauto.
  - intros [(c & mid & tld & -> & _ & Hmid & Htld & Hlen) (c' & h' & E & Hc')].
    injection E as <- _. exists c, mid, tld. repeat split; assumption.
Qed.

Example v2_accepts_more :
  regex_test true V2.host_pattern "-.example.com" = true /\
  regex_test true V1.host_pattern "-.example.com" = false.
Proof. split; reflexivity. Qed.

(** ** Host extraction: forwarded host, port, [www.] *)

Lemma includes_char_false (c : ascii) (s : string) :
  includes s (String c EmptyString) = false ->
  string_forall (fun x => negb (Ascii.eqb x c)) s = true.
Proof.
  induction s as [|a s IH]; [reflexivity|].
  rewrite includes_cons, startsWith_cons. intros H.
  apply orb_false_iff in H as [Ha Hs].
  cbn [string_forall]. rewrite (IH Hs), andb_true_r.
  rewrite Ascii.eqb_sym. destruct (Ascii.eqb c a); [discriminate | reflexivity].
Qed.

Lemma split_without_sep (sep : ascii) (h : string) :
  string_forall (fun x => negb (Ascii.eqb x sep)) h = true -> split sep h = [h].
Proof.
  induction h as [|c h IH]; cbn [string_forall split]; [reflexivity|].
  intros H. apply andb_true_iff in H as [Hc Hh].
  apply negb_true_iff in Hc. now rewrite Hc, (IH Hh).
Qed.

Lemma split_head_stops_at_sep (sep : ascii) (h rest : string) :
  string_forall (fun x => negb (Ascii.eqb x sep)) h = true ->
  split_head sep (h +:+ String sep rest) = h.
Proof.
  intros H. unfold split_head. now rewrite split_app, (split_without_sep sep h H).
Qed.

Lemma split_head_without_sep (sep : ascii) (h : string) :
  string_forall (fun x => negb (Ascii.eqb x sep)) h = true -> split_head sep h = h.
Proof. intros H. unfold split_head. now rewrite (split_without_sep sep h H). Qed.

Lemma split_head_has_no_sep (sep : ascii) (s : string) :
  string_forall (fun x => negb (Ascii.eqb x sep)) (split_head sep s) = true.
Proof.
  unfold split_head. induction s as [|c s IH]; cbn [split]; [reflexivity|].
  destruct (Ascii.eqb c sep) eqn:E; [reflexivity|].
  pose proof (split_nonempty sep s) as Hne.
  destruct (split sep s) as [|seg segs]; [congruence|].
  cbn [string_forall]. now rewrite E, IH.
Qed.

Lemma drop_chars_forall (p : ascii -> bool) (n : nat) :
  forall s, string_forall p s = true -> string_forall p (drop_chars n s) = true.
Proof.
  induction n as [|n IH]; intros [|c s] H; cbn [drop_chars]; try assumption.
  cbn [string_forall] in H. apply andb_true_iff in H as [_ H]. now apply IH.
Qed.

Lemma host_has_no_colon (req : Request) : includes (V1.host req) ":" = false.
Proof.
  apply (includes_char_forall (fun x => negb (Ascii.eqb x ":"))); [|reflexivity].
  unfold V1.host, replace_prefix.
  destruct (regex_test true V1.www_pattern _);
    [apply drop_chars_forall|]; apply split_head_has_no_sep.
Qed.

Lemma v2_handler_same_host (req1 req2 : Request) (w : World) (st : State) :
  V2.host req1 = V2.host req2 -> V2.handler req1 w st = V2.handler req2 w st.
Proof. intros Hh. unfold V2.handler. now rewrite Hh. Qed.

(** X3.  A non-empty [x-forwarded-host] header decides alone: two requests
    for the same URL that carry the same forwarded host are handled alike
    from the same state, whatever their [Host] headers are; for the second
    variant whatever their URLs are, too. *)
Theorem forwarded_host_takes_precedence (req1 req2 : Request) (f : string) :
  f <> EmptyString ->
  headers req1 !! "x-forwarded-host" = Some f ->
  headers req2 !! "x-forwarded-host" = Some f ->
  V1.rawHost req1 = f /\
  V1.host req1 = V1.host req2 /\
  (url req1 = url req2 -> forall w st, V1.handler req1 w st = V1.handler req2 w st) /\
  (forall w st, V2.handler req1 w st = V2.handler req2 w st).
Proof.
  intros Hf H1 H2.
  assert (Ht : truthy f = true)
    by (unfold truthy; apply negb_true_iff; now apply String.eqb_neq).
  assert (R1 : V1.rawHost req1 = f) by (unfold V1.rawHost, js_or; now rewrite H1, Ht).
  assert (R2 : V1.rawHost req2 = f) by (unfold V1.rawHost, js_or; now rewrite H2, Ht).
  assert (Hh : V1.host req1 = V1.host req2) by (unfold V1.host; now rewrite R1, R2).
  split; [exact R1|]. split; [exact Hh|]. split.
  - intros Hu w st. now apply handler_same_host.
  - intros w st. apply v2_handler_same_host.
    unfold V2.host. fold (V1.rawHost req1) (V1.rawHost req2). now rewrite R1, R2.
Qed.

Lemma forwarded_host_takes_precedence_witness :
  V1.rawHost (forwarded_request "shop.example.com" "10.0.0.7:3000" "/") = "shop.example.com" /\
  forall w st,
    V1.handler (forwarded_request "shop.example.com" "10.0.0.7:3000" "/") w st
    = V1.handler (forwarded_request "shop.example.com" "edge.internal" "/") w st.
Proof.
  destruct (forwarded_host_takes_precedence
              (forwarded_request "shop.example.com" "10.0.0.7:3000" "/")
              (forwarded_request "shop.example.com" "edge.internal" "/")
              "shop.example.com") as (H1 & _ & H2 & _);
    [discriminate | reflexivity | reflexivity |].
  split; [exact H1 | now apply H2].
Defined.

(** X4.  Without a usable [x-forwarded-host] (absent, or the empty string)
    the [Host] header is taken; without a usable [Host] header either, the
    candidate is empty, and the first variant sends the "invalid domain" 404
    page and the second variant status 400, both without filesystem call. *)
Theorem host_header_fallback (req : Request) :
  headers req !! "x-forwarded-host" = None \/
  headers req !! "x-forwarded-host" = Some EmptyString ->
  (forall hostHeader,
      headers req !! "host" = Some hostHeader -> V1.rawHost req = hostHeader) /\
  (headers req !! "host" = None ->
   V1.host req = EmptyString /\ V2.host req = EmptyString /\
   forall w res,
     run (V1.handler req) w res =
     (Returned tt, {| st_res := V1.res_404 (V1.msg_invalid EmptyString) res;
                      st_trace := [] |}) /\
     run (V2.handler req) w res =
     (Returned tt, {| st_res := V2.res_text 400 "无效的域名请求。" res;
                      st_trace := [] |})).
Proof.
  intros Hf.
  assert (R : V1.rawHost req = js_or (headers req !! "host") EmptyString).
  { unfold V1.rawHost. destruct Hf as [-> | ->]; reflexivity. }
  split.
  - intros hostHeader Hh. rewrite R, Hh. unfold js_or, truthy.
    destruct (String.eqb_spec hostHeader EmptyString) as [->|]; reflexivity.
  - intros Hh. rewrite Hh in R.
    assert (H1 : V1.host req = EmptyString) by (unfold V1.host; now rewrite R).
    assert (H2 : V2.host req = EmptyString)
      by (unfold V2.host; fold (V1.rawHost req); now rewrite R).
    split; [exact H1|]. split; [exact H2|]. intros w res. split.
    + unfold run. rewrite handler_rejected by (now rewrite H1).
      now rewrite send404_run, H1.
    + unfold run. apply v2_handler_rejected. now rewrite H2.
Qed.

Lemma host_header_fallback_witness :
  V1.rawHost (forwarded_request "" "example.com" "/") = "example.com" /\
  V1.host {| headers := ∅; url := "/" |} = EmptyString.
Proof.
  split.
  - apply (host_header_fallback (forwarded_request "" "example.com" "/"));
      [right|]; reflexivity.
  - apply (host_header_fallback {| headers := ∅; url := "/" |}); [left|]; reflexivity.
Defined.

(** X5.  The host candidate of the first variant never contains a colon, and
    a port is ignored: a raw host [h:port] gives the candidate that [h]
    alone gives, so that two such requests for the same URL are handled
    alike from the same state. *)
Theorem port_is_ignored :
  (forall req, includes (V1.host req) ":" = false) /\
  (forall req1 req2 h port,
      includes h ":" = false ->
      V1.rawHost req1 = h +:+ ":" +:+ port ->
      V1.rawHost req2 = h ->
      V1.host req1 = V1.host req2 /\
      (url req1 = url req2 ->
       forall w st, V1.handler req1 w st = V1.handler req2 w st)).
Proof.
  split; [exact host_has_no_colon|].
  intros req1 req2 h port Hh R1 R2.
  apply includes_char_false in Hh.
  assert (E : V1.host req1 = V1.host req2).
  { unfold V1.host. rewrite R1, R2.
    change (h +:+ ":" +:+ port) with (h +:+ String ":" port).
    now rewrite split_head_stops_at_sep, split_head_without_sep. }
  split; [exact E|]. intros Hu w st. now apply handler_same_host.
Qed.

Lemma port_is_ignored_witness :
  V1.host (request_for "example.com:8443" "/") = V1.host (request_for "example.com" "/").
Proof.
  destruct port_is_ignored as [_ H].
  apply (H (request_for "example.com:8443" "/") (request_for "example.com" "/")
           "example.com" "8443"); reflexivity.
Defined.

Lemma w_letter :
  forall a, ascii_lower a = "w"%char ->
            in_cset true [CChar "w"] a = true /\ negb (Ascii.eqb a ":") = true.
Proof.
  intros [[] [] [] [] [] [] [] []]; vm_compute; intros; (split; congruence).
Qed.

Lemma not_w_letter :
  forall a, ascii_lower a <> "w"%char -> in_cset true [CChar "w"] a = false.
Proof.
  intros [[] [] [] [] [] [] [] []]; vm_compute; intros; congruence.
Qed.

Lemma www_pattern_first (a : ascii) (s : string) :
  in_cset true [CChar "w"] a = false ->
  regex_test true V1.www_pattern (String a s) = false.
Proof.
  intros Ha. destruct (regex_test true V1.www_pattern (String a s)) eqn:E; [|reflexivity].
  apply regex_test_spec in E. unfold V1.www_pattern in E.
  inversion E as [| | ? ? s1 s2 H1 H2 | | | |]; subst.
  inversion H1 as [| ? c Hc | | | | |]; subst.
  match goal with
  | Eq : String c EmptyString +:+ s2 = String a s |- _ =>
      cbn in Eq; injection Eq as -> _
  end.
  congruence.
Qed.

Lemma split_head_port (x tail : string) :
  string_forall (fun c => negb (Ascii.eqb c ":")) x = true ->
  tail = EmptyString \/ (exists port, tail = ":" +:+ port) ->
  split_head ":" (x +:+ tail) = x.
Proof.
  intros Hx [-> | [port ->]].
  - rewrite append_empty_r. now apply split_head_without_sep.
  - change (x +:+ ":" +:+ port) with (x +:+ String ":" port).
    now apply split_head_stops_at_sep.
Qed.

(** X6.  Once the port, if any, is cut off, a leading [www.] in any letter
    case is removed from the host candidate, once: for [h] without colon,
    the raw host [www.h], with or without [:port] behind it, gives the
    candidate [h] as it is, also when [h] starts with [www.] itself.  A raw
    host whose first character is neither [w], [W] nor a colon gives what
    stands before its port, whole. *)
Theorem www_prefix_stripped_once (req : Request) (h tail : string) :
  includes h ":" = false ->
  tail = EmptyString \/ (exists port, tail = ":" +:+ port) ->
  (forall a b c,
      ascii_lower a = "w"%char -> ascii_lower b = "w"%char -> ascii_lower c = "w"%char ->
      V1.rawHost req = String a (String b (String c ("." +:+ h))) +:+ tail ->
      V1.host req = h) /\
  (forall a,
      ascii_lower a <> "w"%char -> a <> ":"%char ->
      V1.rawHost req = String a h +:+ tail -> V1.host req = String a h).
Proof.
  intros Hh Htail. apply includes_char_false in Hh. split.
  - intros a b c Ha Hb Hc R.
    destruct (w_letter a Ha) as [Wa Na], (w_letter b Hb) as [Wb Nb],
             (w_letter c Hc) as [Wc Nc].
    unfold V1.host. rewrite R, split_head_port;
      [| cbn [string_forall String.append]; now rewrite Na, Nb, Nc, Hh
       | assumption].
    unfold replace_prefix. cbn [take_chars drop_chars String.append].
    replace (regex_test true V1.www_pattern
               (String a (String b (String c (String "." EmptyString))))) with true;
      [reflexivity|].
    symmetry. apply regex_test_spec. unfold V1.www_pattern.
    change (String a (String b (String c (String "." EmptyString))))
      with (String a EmptyString +:+ (String b EmptyString +:+
              (String c EmptyString +:+ String "." EmptyString))).
    repeat constructor; assumption.
  - intros a Ha Hcolon R.
    unfold V1.host. rewrite R, split_head_port; [| | assumption].
    + unfold replace_prefix.
      destruct h as [|x1 [|x2 [|x3 h']]]; cbn [take_chars];
        now rewrite www_pattern_first by (now apply not_w_letter).
    + cbn [string_forall]. rewrite Hh, andb_true_r. apply negb_true_iff.
      now apply Ascii.eqb_neq.
Qed.

Lemma www_prefix_stripped_once_witness :
  V1.host (request_for "WwW.www.example.com:8080" "/") = "www.example.com" /\
  V1.host (request_for "api.example.com:8080" "/") = "api.example.com" /\
  V1.host (request_for "api.example.com" "/") = "api.example.com".
Proof.
  assert (Hport : ":8080" = EmptyString \/ (exists port, ":8080" = ":" +:+ port))
    by (right; now exists "8080").
  destruct (www_prefix_stripped_once (request_for "WwW.www.example.com:8080" "/")
              "www.example.com" ":8080" eq_refl Hport) as [H1 _].
  destruct (www_prefix_stripped_once (request_for "api.example.com:8080" "/")
              "pi.example.com" ":8080" eq_refl Hport) as [_ H2].
  destruct (www_prefix_stripped_once (request_for "api.example.com" "/")
              "pi.example.com" EmptyString eq_refl (or_introl eq_refl)) as [_ H3].
  split; [apply (H1 "W" "w" "W")%char; reflexivity|].
  split; [apply (H2 "a"%char) | apply (H3 "a"%char)];
    (discriminate || reflexivity).
Defined.

(** ** Filesystem calls of the first variant *)

Lemma root_index_contained (cwd : string) :
  well_formed_cwd cwd = true -> startsWith (V1.rootIndexPath cwd) cwd = true.
Proof.
  intros Hwf.
  destruct (resolved_path cwd "index.html" Hwf eq_refl) as (base & Hbase & _ & _ & _ & ->).
  destruct Hbase as [-> | ->]; [apply startsWith_app|].
  change (base +:+ "/index.html") with (base +:+ "/" +:+ "index.html").
  rewrite <- append_assoc. apply startsWith_app.
Qed.

(** X7.  The first variant touches the filesystem in one of five ways only:
    not at all; an existence check of the site file and one of the root
    index file; these two and a read of the root index file (only when the
    site file is absent, the root index file present and the URL [/]); an
    existence check and a [stat] of the site file; these two and a read of
    the site file (only when [stat] says it is a regular file).  Nothing is
    read that was not found first, at most one file is read, and under a
    well-formed working directory every path touched starts with it.  When
    [process.cwd()] throws there is no filesystem call. *)
Theorem filesystem_discipline (req : Request) (w : World) (res : Res) :
  (forall e, w_cwd w = Thrown e -> st_trace (snd (run (V1.handler req) w res)) = []) /\
  (forall cwd,
      w_cwd w = Returned cwd ->
      (st_trace (snd (run (V1.handler req) w res)) = [] \/
       (st_trace (snd (run (V1.handler req) w res))
        = [OpExists (V1.normalizedPath cwd (V1.host req)); OpExists (V1.rootIndexPath cwd)] /\
        fs_existsSync w (V1.normalizedPath cwd (V1.host req)) = false) \/
       (st_trace (snd (run (V1.handler req) w res))
        = [OpExists (V1.normalizedPath cwd (V1.host req)); OpExists (V1.rootIndexPath cwd);
           OpRead (V1.rootIndexPath cwd)] /\
        fs_existsSync w (V1.normalizedPath cwd (V1.host req)) = false /\
        fs_existsSync w (V1.rootIndexPath cwd) = true /\ url req = "/") \/
       (st_trace (snd (run (V1.handler req) w res))
        = [OpExists (V1.normalizedPath cwd (V1.host req));
           OpStat (V1.normalizedPath cwd (V1.host req))] /\
        fs_existsSync w (V1.normalizedPath cwd (V1.host req)) = true) \/
       (st_trace (snd (run (V1.handler req) w res))
        = [OpExists (V1.normalizedPath cwd (V1.host req));
           OpStat (V1.normalizedPath cwd (V1.host req));
           OpRead (V1.normalizedPath cwd (V1.host req))] /\
        fs_existsSync w (V1.normalizedPath cwd (V1.host req)) = true /\
        exists stats,
          fs_statSync w (V1.normalizedPath cwd (V1.host req)) = Returned stats /\
          isFile stats = true)) /\
      (well_formed_cwd cwd = true ->
       Forall (fun op => startsWith (op_path op) cwd = true)
              (st_trace (snd (run (V1.handler req) w res))))).
Proof.
  unfold run.
  destruct (V1.host_rejected (V1.host req)) eqn:Hrej.
  { rewrite handler_rejected, send404_run by assumption. cbn [snd st_trace].
    split; [reflexivity|]. intros cwd _. split; [now left | constructor]. }
  destruct (V1.host_suspicious (V1.host req)) eqn:Hsus.
  { rewrite handler_suspicious, send404_run by assumption. cbn [snd st_trace].
    split; [reflexivity|]. intros cwd _. split; [now left | constructor]. }
  rewrite handler_validated by assumption. unfold try_catch. split.
  - intros e He. rewrite (serve_site_cwd_throws req _ e) by assumption.
    now rewrite caught_run.
  - intros cwd Hcwd.
    destruct (startsWith (V1.normalizedPath cwd (V1.host req)) cwd) eqn:Hin.
    2:{ rewrite (serve_site_escape req _ cwd), send404_run by assumption.
        cbn [snd st_trace]. split; [now left | constructor]. }
    rewrite (serve_site_run req _ cwd) by assumption. cbv zeta.
    assert (Hroot : well_formed_cwd cwd = true ->
                    startsWith (V1.rootIndexPath cwd) cwd = true)
      by apply root_index_contained.
    destruct (fs_existsSync w (V1.normalizedPath cwd (V1.host req))) eqn:Hex.
    + destruct (fs_statSync w (V1.normalizedPath cwd (V1.host req))) as [stats|e] eqn:Hst.
      * destruct (isFile stats) eqn:Hfile.
        -- rewrite sendHtml_run. cbn [snd st_trace app]. split.
           ++ do 4 right. split; [reflexivity|]. split; [reflexivity|]. eauto.
           ++ intros _. repeat constructor; exact Hin.
        -- rewrite send404_run. cbn [snd st_trace app]. split.
           ++ do 3 right. left. split; reflexivity.
           ++ intros _. repeat constructor; exact Hin.
      * rewrite caught_run. cbn [snd st_trace app]. split.
        -- do 3 right. left. split; reflexivity.
        -- intros _. repeat constructor; exact Hin.
    + destruct (fs_existsSync w (V1.rootIndexPath cwd)) eqn:Hrx; cbn [andb].
      * destruct (String.eqb_spec (url req) "/") as [Hu|Hu].
        -- rewrite sendHtml_run. cbn [snd st_trace app]. split.
           ++ do 2 right. left. repeat split; assumption.
           ++ intros Hwf. repeat constructor; cbn [op_path]; auto.
        -- rewrite send404_run. cbn [snd st_trace app]. split.
           ++ right. left. split; reflexivity.
           ++ intros Hwf. repeat constructor; cbn [op_path]; auto.
      * rewrite send404_run. cbn [snd st_trace app]. split.
        -- right. left. split; reflexivity.
        -- intros Hwf. repeat constructor; cbn [op_path]; auto.
Qed.

Lemma filesystem_discipline_witness :
  Forall (fun op => startsWith (op_path op) "/var/task" = true)
         (st_trace (snd (run (V1.handler (request_for "example.com" "/")) one_site
                             (fresh_res (request_for "example.com" "/"))))) /\
  st_trace (snd (run (V1.handler (request_for "example.com" "/")) no_cwd
                     (fresh_res (request_for "example.com" "/")))) = [].
Proof.
  split.
  - apply (filesystem_discipline (request_for "example.com" "/") one_site
             (fresh_res (request_for "example.com" "/"))); reflexivity.
  - apply (proj1 (filesystem_discipline (request_for "example.com" "/") no_cwd
                    (fresh_res (request_for "example.com" "/"))) enoent).
    reflexivity.
Defined.

(** X8.  When the site path of a validated host exists but is not a regular
    file (a directory, say), the answer is the 404 page "wrong resource
    type"; the path is checked and [stat]ed but never read. *)
Theorem not_a_file_is_not_read (req : Request) (w : World) (res : Res)
        (cwd : string) (stats : Stats) :
  V1.host_rejected (V1.host req) = false ->
  V1.host_suspicious (V1.host req) = false ->
  w_cwd w = Returned cwd -> well_formed_cwd cwd = true ->
  fs_existsSync w (V1.normalizedPath cwd (V1.host req)) = true ->
  fs_statSync w (V1.normalizedPath cwd (V1.host req)) = Returned stats ->
  isFile stats = false ->
  run (V1.handler req) w res =
  (Returned tt,
   {| st_res := V1.res_404 "资源类型错误" res;
      st_trace := [OpExists (V1.normalizedPath cwd (V1.host req));
                   OpStat (V1.normalizedPath cwd (V1.host req))] |}).
Proof.
  intros Hrej Hsus Hcwd Hwf Hex Hst Hfile.
  unfold run. rewrite handler_validated by assumption. unfold try_catch.
  rewrite (serve_site_run req _ cwd)
    by (try assumption; now apply validated_host_contained).
  cbv zeta. rewrite Hex, Hst, Hfile. now rewrite send404_run.
Qed.

Lemma not_a_file_is_not_read_witness :
  run (V1.handler (request_for "example.com" "/")) directory_site
      (fresh_res (request_for "example.com" "/"))
  = (Returned tt,
     {| st_res := V1.res_404 "资源类型错误" (fresh_res (request_for "example.com" "/"));
        st_trace := [OpExists "/var/task/example.com/index.html";
                     OpStat "/var/task/example.com/index.html"] |}).
Proof.
  apply (not_a_file_is_not_read (request_for "example.com" "/") directory_site _
           "/var/task" {| isFile := false |}); reflexivity.
Defined.

(** X9.  A read that fails is answered with the 500 JSON "cannot read page
    content" whatever the error code is, [ENOENT] and [EACCES] included:
    for the site file after it passed the existence and type checks, and for
    the root index file of the fallback, which is read without type check
    (so a directory there gives 500, not 404). *)
Theorem failed_read_is_500 (req : Request) (w : World) (res : Res)
        (cwd : string) (e : JsError) :
  V1.host_rejected (V1.host req) = false ->
  V1.host_suspicious (V1.host req) = false ->
  w_cwd w = Returned cwd -> well_formed_cwd cwd = true ->
  (fs_existsSync w (V1.normalizedPath cwd (V1.host req)) = true ->
   fs_statSync w (V1.normalizedPath cwd (V1.host req)) = Returned {| isFile := true |} ->
   fs_readFileSync w (V1.normalizedPath cwd (V1.host req)) = Thrown e ->
   run (V1.handler req) w res =
   (Returned tt,
    {| st_res := V1.res_error 500 "无法读取页面内容" (now w) res;
       st_trace := [OpExists (V1.normalizedPath cwd (V1.host req));
                    OpStat (V1.normalizedPath cwd (V1.host req));
                    OpRead (V1.normalizedPath cwd (V1.host req))] |})) /\
  (fs_existsSync w (V1.normalizedPath cwd (V1.host req)) = false ->
   url req = "/" ->
   fs_existsSync w (V1.rootIndexPath cwd) = true ->
   fs_readFileSync w (V1.rootIndexPath cwd) = Thrown e ->
   run (V1.handler req) w res =
   (Returned tt,
    {| st_res := V1.res_error 500 "无法读取页面内容" (now w) res;
       st_trace := [OpExists (V1.normalizedPath cwd (V1.host req));
                    OpExists (V1.rootIndexPath cwd);
                    OpRead (V1.rootIndexPath cwd)] |})).
Proof.
  intros Hrej Hsus Hcwd Hwf.
  unfold run. rewrite handler_validated by assumption. unfold try_catch.
  rewrite (serve_site_run req _ cwd)
    by (try assumption; now apply validated_host_contained).
  cbv zeta. split.
  - intros Hex Hst Hread. rewrite Hex, Hst. cbn [isFile].
    now rewrite sendHtml_run, Hread.
  - intros Hex Hu Hroot Hread. rewrite Hex, Hroot, Hu. cbn [andb].
    now rewrite String.eqb_refl, sendHtml_run, Hread.
Qed.

Lemma failed_read_is_500_witness :
  run (V1.handler (request_for "example.com" "/")) vanishing_site
      (fresh_res (request_for "example.com" "/"))
  = (Returned tt,
     {| st_res := V1.res_error 500 "无法读取页面内容" (now vanishing_site)
                    (fresh_res (request_for "example.com" "/"));
        st_trace := [OpExists "/var/task/example.com/index.html";
                     OpStat "/var/task/example.com/index.html";
                     OpRead "/var/task/example.com/index.html"] |}) /\
  run (V1.handler (request_for "example.com" "/")) root_is_directory
      (fresh_res (request_for "example.com" "/"))
  = (Returned tt,
     {| st_res := V1.res_error 500 "无法读取页面内容" (now root_is_directory)
                    (fresh_res (request_for "example.com" "/"));
        st_trace := [OpExists "/var/task/example.com/index.html";
                     OpExists "/var/task/index.html";
                     OpRead "/var/task/index.html"] |}).
Proof.
  split.
  - apply (failed_read_is_500 (request_for "example.com" "/") vanishing_site _
             "/var/task" enoent); reflexivity.
  - apply (failed_read_is_500 (request_for "example.com" "/") root_is_directory _
             "/var/task" eisdir); reflexivity.
Defined.

(** ** One site per host *)

Lemma plain_host_contained (cwd h : string) :
  well_formed_cwd cwd = true -> plain_segment h = true ->
  startsWith (V1.normalizedPath cwd h) cwd = true.
Proof.
  intros Hwf Hplain.
  destruct (resolved_path cwd h Hwf Hplain) as (base & Hbase & _ & _ & -> & _).
  destruct Hbase as [-> | ->]; [apply startsWith_app|].
  change (base +:+ "/" +:+ h +:+ "/index.html")
    with (base +:+ "/" +:+ (h +:+ "/index.html")).
  rewrite <- append_assoc. apply startsWith_app.
Qed.

Lemma segment_before_slash_unique (h1 : string) :
  forall h2 x y,
    no_slash h1 = true -> no_slash h2 = true ->
    h1 +:+ String slash x = h2 +:+ String slash y -> h1 = h2.
Proof.
  unfold no_slash.
  induction h1 as [|c h1 IH]; intros [|d h2] x y H1 H2 E;
    cbn [String.append string_forall] in *.
  - reflexivity.
  - injection E as <- _. apply andb_true_iff in H2 as [H2 _].
    now rewrite Ascii.eqb_refl in H2.
  - injection E as -> _. apply andb_true_iff in H1 as [H1 _].
    now rewrite Ascii.eqb_refl in H1.
  - injection E as -> E. apply andb_true_iff in H1 as [_ H1].
    apply andb_true_iff in H2 as [_ H2]. f_equal. now apply (IH h2 x y).
Qed.

Lemma append_slash_inj (s : string) :
  forall t, s +:+ "/" = t +:+ "/" -> s = t.
Proof.
  induction s as [|c s IH]; intros [|d t] E; cbn in E.
  - reflexivity.
  - injection E as _ E. destruct t; discriminate.
  - injection E as _ E. destruct s; discriminate.
  - injection E as -> E. f_equal. now apply IH.
Qed.

(** X10.  Under a well-formed working directory two validated hosts are
    looked up at the same path only if they are the same string, letter case
    included, and no validated host is looked up at the root index file. *)
Theorem sites_are_isolated (cwd h1 h2 : string) :
  well_formed_cwd cwd = true ->
  V1.host_rejected h1 = false -> V1.host_rejected h2 = false ->
  (V1.normalizedPath cwd h1 = V1.normalizedPath cwd h2 -> h1 = h2) /\
  V1.normalizedPath cwd h1 <> V1.rootIndexPath cwd.
Proof.
  intros Hwf Hr1 Hr2.
  apply validated_host in Hr1 as [_ Hp1]. apply validated_host in Hr2 as [_ Hp2].
  destruct (plain_segment_facts h1 Hp1) as (_ & Hn1 & _).
  destruct (plain_segment_facts h2 Hp2) as (_ & Hn2 & _).
  destruct (resolved_path cwd h1 Hwf Hp1) as (b1 & Hb1 & _ & _ & E1 & R1).
  destruct (resolved_path cwd h2 Hwf Hp2) as (b2 & Hb2 & _ & _ & E2 & _).
  split.
  - rewrite E1, E2. intros E.
    assert (Hcases : b1 = b2 \/ b1 = b2 +:+ "/" \/ b2 = b1 +:+ "/").
    { destruct Hb1 as [Hc1 | Hc1], Hb2 as [Hc2 | Hc2].
      - left. congruence.
      - right. left. congruence.
      - right. right. congruence.
      - left. apply append_slash_inj. congruence. }
    destruct Hcases as [<- | [-> | ->]].
    + apply (inj (String.append b1)) in E.
      change ("/" +:+ h1 +:+ "/index.html") with (String slash (h1 +:+ "/index.html")) in E.
      change ("/" +:+ h2 +:+ "/index.html") with (String slash (h2 +:+ "/index.html")) in E.
      injection E as E.
      now apply (segment_before_slash_unique h1 h2 "index.html" "index.html").
    + rewrite append_assoc in E. apply (inj (String.append b2)) in E.
      cbn in E. injection E as E.
      destruct h2 as [|d h2]; cbn in E; [discriminate|].
      injection E as <- _. unfold no_slash in Hn2. cbn in Hn2. discriminate.
    + rewrite append_assoc in E. apply (inj (String.append b1)) in E.
      cbn in E. injection E as E.
      destruct h1 as [|d h1]; cbn in E; [discriminate|].
      injection E as -> _. unfold no_slash in Hn1. cbn in Hn1. discriminate.
  - rewrite E1, R1. intros E. apply (inj (String.append b1)) in E.
    cbn in E. injection E as E.
    apply (f_equal no_slash) in E. unfold no_slash in E.
    rewrite string_forall_app in E. cbn in E.
    rewrite andb_false_r in E. discriminate.
Qed.

Lemma sites_are_isolated_witness :
  V1.normalizedPath "/var/task" "Example.com" <> V1.rootIndexPath "/var/task".
Proof.
  apply (sites_are_isolated "/var/task" "Example.com" "example.com"); reflexivity.
Defined.

(** ** The responses of the first variant *)

Lemma res_html_headers (c : nat) (content : string) (r : Res) :
  res_headers (V1.res_html c content r) !! "Cache-Control"
  = Some "public, max-age=3600, stale-while-revalidate=7200" /\
  res_headers (V1.res_html c content r) !! "Content-Type"
  = Some "text/html; charset=utf-8" /\
  res_headers (V1.res_html c content r) !! "X-Powered-By"
  = Some "Vercel-Domain-Router/1.0".
Proof.
  unfold V1.res_html. cbn [res_headers]. repeat split.
  - rewrite !lookup_insert_ne by discriminate. apply lookup_insert_eq.
  - rewrite lookup_insert_ne by discriminate. apply lookup_insert_eq.
  - apply lookup_insert_eq.
Qed.

Lemma res_404_headers (message : string) (r : Res) :
  res_headers (V1.res_404 message r) !! "Cache-Control"
  = Some "no-cache, no-store, must-revalidate" /\
  res_headers (V1.res_404 message r) !! "Content-Type"
  = Some "text/html; charset=utf-8".
Proof.
  unfold V1.res_404. cbn [res_headers]. split.
  - rewrite lookup_insert_ne by discriminate. apply lookup_insert_eq.
  - apply lookup_insert_eq.
Qed.

Lemma res_error_headers (c : nat) (message ts : string) (r : Res) :
  res_headers (V1.res_error c message ts r) !! "Cache-Control" = Some "no-cache".
Proof. unfold V1.res_error. cbn [res_headers]. apply lookup_insert_eq. Qed.

(** X11.  Every response of the first variant is of one of three kinds,
    told apart by the status: 200 with a text body, served as HTML and
    publicly cacheable; 404 with the 404 page, served as HTML and never
    cached or stored; 403 or 500 with the JSON error object, whose [code] is
    the status, whose [error] is true and whose [timestamp] is the current
    time, marked [no-cache].  There is no other status; in particular the
    first variant never answers 400. *)
Theorem response_kinds (req : Request) (w : World) (res : Res) :
  exists st,
    run (V1.handler req) w res = (Returned tt, st) /\
    ((statusCode (st_res st) = 200 /\
      (exists content, sent (st_res st) = Some (BodyText content)) /\
      res_headers (st_res st) !! "Content-Type" = Some "text/html; charset=utf-8" /\
      res_headers (st_res st) !! "Cache-Control"
      = Some "public, max-age=3600, stale-while-revalidate=7200" /\
      res_headers (st_res st) !! "X-Powered-By" = Some "Vercel-Domain-Router/1.0") \/
     (statusCode (st_res st) = 404 /\
      (exists message,
          sent (st_res st) = Some (BodyText (notFoundHtml message (V1.domain_line res)))) /\
      res_headers (st_res st) !! "Content-Type" = Some "text/html; charset=utf-8" /\
      res_headers (st_res st) !! "Cache-Control"
      = Some "no-cache, no-store, must-revalidate") \/
     ((statusCode (st_res st) = 403 \/ statusCode (st_res st) = 500) /\
      (exists message,
          sent (st_res st)
          = Some (BodyJson {| j_error := true; j_code := statusCode (st_res st);
                              j_message := message; j_timestamp := now w |})) /\
      res_headers (st_res st) !! "Cache-Control" = Some "no-cache")).
Proof.
  destruct (handler_summary req w) as (k & T & Hrun & Hrej & Hsus & Hok).
  eexists. split; [unfold run; apply Hrun|]. cbn [st_res].
  assert (Hk : (exists m, k = V1.Send404 m) \/ V1.validated_outcome (V1.host req) k).
  { destruct (V1.host_rejected (V1.host req)) eqn:E1.
    - left. destruct (Hrej eq_refl) as [-> _]. eauto.
    - destruct (V1.host_suspicious (V1.host req)) eqn:E2.
      + left. destruct (Hsus eq_refl eq_refl) as [-> _]. eauto.
      + right. now apply Hok. }
  assert (H404 : forall m,
             statusCode (V1.res_404 m res) = 404 /\
             (exists message,
                 sent (V1.res_404 m res)
                 = Some (BodyText (notFoundHtml message (V1.domain_line res)))) /\
             res_headers (V1.res_404 m res) !! "Content-Type"
             = Some "text/html; charset=utf-8" /\
             res_headers (V1.res_404 m res) !! "Cache-Control"
             = Some "no-cache, no-store, must-revalidate").
  { intros m. destruct (res_404_headers m res) as [Hc Ht].
    split; [reflexivity|]. split; [now exists m|]. split; assumption. }
  assert (Herr : forall c m,
             c = 403 \/ c = 500 ->
             (statusCode (V1.res_error c m (now w) res) = 403 \/
              statusCode (V1.res_error c m (now w) res) = 500) /\
             (exists message,
                 sent (V1.res_error c m (now w) res)
                 = Some (BodyJson {| j_error := true;
                                     j_code := statusCode (V1.res_error c m (now w) res);
                                     j_message := message; j_timestamp := now w |})) /\
             res_headers (V1.res_error c m (now w) res) !! "Cache-Control" = Some "no-cache").
  { intros c m Hc. split; [exact Hc|]. split; [now exists m|]. apply res_error_headers. }
  destruct Hk as [[m ->] | Hk].
  - right. left. apply H404.
  - destruct Hk; cbn [V1.apply_sender];
      try (right; left; apply H404);
      try (right; right; apply Herr; auto).
    left. destruct (res_html_headers 200 content res) as (Hc & Ht & Hp).
    split; [reflexivity|]. split; [now exists content|]. auto.
Qed.

Lemma caught_not_ok (e : JsError) (ts : string) (r : Res) :
  statusCode (V1.apply_sender (V1.caught e) ts r) <> 200.
Proof.
  unfold V1.caught. destruct (code_is e "ENOENT"); [discriminate|].
  destruct (code_is e "EACCES"); discriminate.
Qed.

(** X12.  A 200 answer of the first variant always carries a file that was
    read in this very run: the host passed the pattern and the blacklist,
    [process.cwd()] returned, and the body is what [readFileSync] returned
    for the site file, found by the existence check, or, for the URL [/]
    only, for the root index file, found likewise; that read is the last
    filesystem call. *)
Theorem ok_body_was_read (req : Request) (w : World) (res : Res) :
  statusCode (st_res (snd (run (V1.handler req) w res))) = 200 ->
  V1.host_rejected (V1.host req) = false /\
  V1.host_suspicious (V1.host req) = false /\
  exists cwd p content T,
    w_cwd w = Returned cwd /\
    (p = V1.normalizedPath cwd (V1.host req) \/
     p = V1.rootIndexPath cwd /\ url req = "/") /\
    fs_existsSync w p = true /\
    fs_readFileSync w p = Returned content /\
    sent (st_res (snd (run (V1.handler req) w res))) = Some (BodyText content) /\
    st_trace (snd (run (V1.handler req) w res)) = T ++ [OpRead p].
Proof.
  unfold run.
  destruct (V1.host_rejected (V1.host req)) eqn:Hrej.
  { rewrite handler_rejected, send404_run by assumption. discriminate. }
  destruct (V1.host_suspicious (V1.host req)) eqn:Hsus.
  { rewrite handler_suspicious, send404_run by assumption. discriminate. }
  rewrite handler_validated by assumption. unfold try_catch.
  destruct (w_cwd w) as [cwd|e] eqn:Hcwd.
  2:{ rewrite (serve_site_cwd_throws req _ e), caught_run by assumption.
      cbn [snd st_res]. intros H. now apply caught_not_ok in H. }
  destruct (startsWith (V1.normalizedPath cwd (V1.host req)) cwd) eqn:Hin.
  2:{ rewrite (serve_site_escape req _ cwd), send404_run by assumption. discriminate. }
  rewrite (serve_site_run req _ cwd) by assumption. cbv zeta.
  destruct (fs_existsSync w (V1.normalizedPath cwd (V1.host req))) eqn:Hex.
  - destruct (fs_statSync w (V1.normalizedPath cwd (V1.host req))) as [stats|e].
    + destruct (isFile stats).
      * rewrite sendHtml_run. cbn [snd st_res st_trace app].
        destruct (fs_readFileSync w (V1.normalizedPath cwd (V1.host req)))
          as [content|e] eqn:Hread; [|discriminate].
        intros _. split; [reflexivity|]. split; [reflexivity|].
        exists cwd, (V1.normalizedPath cwd (V1.host req)), content,
          [OpExists (V1.normalizedPath cwd (V1.host req));
           OpStat (V1.normalizedPath cwd (V1.host req))].
        repeat split; auto.
      * rewrite send404_run. discriminate.
    + rewrite caught_run. cbn [snd st_res]. intros H. now apply caught_not_ok in H.
  - destruct (fs_existsSync w (V1.rootIndexPath cwd)) eqn:Hrx; cbn [andb].
    + destruct (String.eqb_spec (url req) "/") as [Hu|Hu].
      * rewrite sendHtml_run. cbn [snd st_res st_trace app].
        destruct (fs_readFileSync w (V1.rootIndexPath cwd))
          as [content|e] eqn:Hread; [|discriminate].
        intros _. split; [reflexivity|]. split; [reflexivity|].
        exists cwd, (V1.rootIndexPath cwd), content,
          [OpExists (V1.normalizedPath cwd (V1.host req));
           OpExists (V1.rootIndexPath cwd)].
        repeat split; auto.
      * rewrite send404_run. discriminate.
    + rewrite send404_run. discriminate.
Qed.

Lemma ok_body_was_read_witness :
  exists cwd p content T,
    w_cwd landing_only = Returned cwd /\
    (p = V1.normalizedPath cwd (V1.host (request_for "example.com" "/")) \/
     p = V1.rootIndexPath cwd /\ url (request_for "example.com" "/") = "/") /\
    fs_existsSync landing_only p = true /\
    fs_readFileSync landing_only p = Returned content /\
    sent (st_res (snd (run (V1.handler (request_for "example.com" "/")) landing_only
                           (fresh_res (request_for "example.com" "/")))))
    = Some (BodyText content) /\
    st_trace (snd (run (V1.handler (request_for "example.com" "/")) landing_only
                       (fresh_res (request_for "example.com" "/")))) = T ++ [OpRead p].
Proof.
  apply (ok_body_was_read (request_for "example.com" "/") landing_only
           (fresh_res (request_for "example.com" "/"))).
  reflexivity.
Defined.

(** ** The 404 page *)

(** X13.  The 404 page contains its message between [<h2>] and [</h2>] and
    the host shown between [<div class="domain">] and [</div>], character
    for character: nothing is escaped, whatever the two strings hold.  So
    the page sent for a host candidate that failed the pattern contains
    that candidate as it came. *)
Theorem not_found_page_is_unescaped :
  (forall message domain,
      includes (notFoundHtml message domain) ("<h2>" +:+ message +:+ "</h2>") = true /\
      includes (notFoundHtml message domain)
               ("<div class=" +:+ dquote +:+ "domain" +:+ dquote +:+ ">"
                  +:+ domain +:+ "</div>") = true) /\
  (forall req w res,
      V1.host_rejected (V1.host req) = true ->
      exists page,
        sent (st_res (snd (run (V1.handler req) w res))) = Some (BodyText page) /\
        includes page (V1.host req) = true).
Proof.
  destruct notFoundHtml_frame as (head & middle & tail & Hframe). split.
  - intros message domain. rewrite Hframe. split.
    + apply includes_middle.
    + set (m := "<h2>" +:+ message +:+ "</h2>").
      set (d := "<div class=" +:+ dquote +:+ "domain" +:+ dquote +:+ ">"
                  +:+ domain +:+ "</div>").
      replace (head +:+ m +:+ middle +:+ d +:+ tail)
        with ((head +:+ m +:+ middle) +:+ d +:+ tail)
        by (now rewrite !append_assoc).
      apply includes_middle.
  - intros req w res Hrej. unfold run.
    rewrite handler_rejected, send404_run by assumption.
    cbn [snd st_res V1.res_404 sent]. eexists. split; [reflexivity|].
    rewrite Hframe. unfold V1.msg_invalid.
    apply (includes_inner head "<h2>无效域名: " (V1.host req) "</h2>").
Qed.

Lemma not_found_page_is_unescaped_witness :
  exists page,
    sent (st_res (snd (run (V1.handler (request_for "<img src=x>" "/")) one_site
                           (fresh_res (request_for "<img src=x>" "/")))))
    = Some (BodyText page) /\
    includes page (V1.host (request_for "<img src=x>" "/")) = true.
Proof.
  apply (proj2 not_found_page_is_unescaped). reflexivity.
Defined.

(** ** The second variant *)

(** X14.  The second variant, when [process.cwd()] returns, ends in one of
    four ways: status 400 for an empty or malformed host, without
    filesystem call; status 404 with a text that has the host between
    quotes when [<cwd>/<host>/index.html] does not exist; status 200 with
    the text read
    and the HTML content type when it exists and the read succeeds; status
    500 when it exists and the read fails (as for a directory: there is no
    type check).  The URL plays no part and there is no fallback page. *)
Theorem v2_outcomes (req : Request) (w : World) (res : Res) (cwd : string) :
  w_cwd w = Returned cwd ->
  (V2.host req = EmptyString \/ regex_test true V2.host_pattern (V2.host req) = false ->
   run (V2.handler req) w res =
   (Returned tt, {| st_res := V2.res_text 400 "无效的域名请求。" res; st_trace := [] |})) /\
  (regex_test true V2.host_pattern (V2.host req) = true ->
   fs_existsSync w (V2.filePath cwd (V2.host req)) = false ->
   run (V2.handler req) w res =
   (Returned tt,
    {| st_res := V2.res_text 404 (V2.msg_no_site (V2.host req)) res;
       st_trace := [OpExists (V2.filePath cwd (V2.host req))] |}) /\
   statusCode (st_res (snd (run (V2.handler req) w res))) = 404 /\
   sent (st_res (snd (run (V2.handler req) w res)))
   = Some (BodyText ("抱歉，域名 " +:+ dquote +:+ V2.host req +:+ dquote
                       +:+ " 的展示页面尚未创建。")) /\
   includes ("抱歉，域名 " +:+ dquote +:+ V2.host req +:+ dquote
               +:+ " 的展示页面尚未创建。") (V2.host req) = true) /\
  (forall content,
      regex_test true V2.host_pattern (V2.host req) = true ->
      fs_existsSync w (V2.filePath cwd (V2.host req)) = true ->
      fs_readFileSync w (V2.filePath cwd (V2.host req)) = Returned content ->
      run (V2.handler req) w res =
      (Returned tt,
       {| st_res :=
            {| res_req := res_req res; statusCode := 200;
               res_headers :=
                 <["Content-Type" := "text/html; charset=utf-8"]> (res_headers res);
               sent := Some (BodyText content) |};
          st_trace := [OpExists (V2.filePath cwd (V2.host req));
                       OpRead (V2.filePath cwd (V2.host req))] |})) /\
  (forall e,
      regex_test true V2.host_pattern (V2.host req) = true ->
      fs_existsSync w (V2.filePath cwd (V2.host req)) = true ->
      fs_readFileSync w (V2.filePath cwd (V2.host req)) = Thrown e ->
      run (V2.handler req) w res =
      (Returned tt,
       {| st_res := V2.res_text 500 "服务器内部错误，无法读取页面。" res;
          st_trace := [OpExists (V2.filePath cwd (V2.host req));
                       OpRead (V2.filePath cwd (V2.host req))] |})).
Proof.
  intros Hcwd. split.
  { intros Hbad. unfold run. apply v2_handler_rejected.
    destruct Hbad as [-> | ->]; [reflexivity | apply orb_true_r]. }
  assert (Hstep : regex_test true V2.host_pattern (V2.host req) = true ->
                  run (V2.handler req) w res =
                  (if fs_existsSync w (V2.filePath cwd (V2.host req))
                   then match fs_readFileSync w (V2.filePath cwd (V2.host req)) with
                        | Returned content =>
                            (Returned tt,
                             {| st_res :=
                                  {| res_req := res_req res; statusCode := 200;
                                     res_headers :=
                                       <["Content-Type" := "text/html; charset=utf-8"]>
                                         (res_headers res);
                                     sent := Some (BodyText content) |};
                                st_trace := [OpExists (V2.filePath cwd (V2.host req));
                                             OpRead (V2.filePath cwd (V2.host req))] |})
                        | Thrown _ =>
                            (Returned tt,
                             {| st_res := V2.res_text 500 "服务器内部错误，无法读取页面。" res;
                                st_trace := [OpExists (V2.filePath cwd (V2.host req));
                                             OpRead (V2.filePath cwd (V2.host req))] |})
                        end
                   else (Returned tt,
                         {| st_res := V2.res_text 404 (V2.msg_no_site (V2.host req)) res;
                            st_trace := [OpExists (V2.filePath cwd (V2.host req))] |}))).
  { intros Hre. unfold run, V2.handler. rewrite Hre.
    destruct (v2_host_pattern_shape _ Hre) as [Hne _].
    assert (Ht : truthy (V2.host req) = true)
      by (unfold truthy; apply negb_true_iff; now apply String.eqb_neq).
    rewrite Ht. cbn [negb orb].
    unfold bind, process_cwd, existsSync, bind, log_op. rewrite Hcwd.
    fold (V2.filePath cwd (V2.host req)). cbn [st_res st_trace app].
    destruct (fs_existsSync w (V2.filePath cwd (V2.host req))); [|reflexivity].
    unfold try_catch, readFileSync, bind, log_op. cbn [st_res st_trace app].
    destruct (fs_readFileSync w (V2.filePath cwd (V2.host req))); reflexivity. }
  split; [|split].
  - intros Hre Hex.
    assert (Hm : V2.msg_no_site (V2.host req)
                 = "抱歉，域名 " +:+ dquote +:+ V2.host req +:+ dquote
                     +:+ " 的展示页面尚未创建。") by reflexivity.
    rewrite Hstep, Hex by assumption.
    split; [reflexivity|]. split; [reflexivity|].
    split; [cbn [snd st_res V2.res_text sent]; now rewrite Hm|].
    apply (includes_middle ("抱歉，域名 " +:+ dquote) (V2.host req)
             (dquote +:+ " 的展示页面尚未创建。")).
  - intros content Hre Hex Hread. now rewrite Hstep, Hex, Hread.
  - intros e Hre Hex Hread. now rewrite Hstep, Hex, Hread.
Qed.

Lemma v2_outcomes_witness :
  run (V2.handler (request_for "example.com" "/any/path")) one_site
      (fresh_res (request_for "example.com" "/any/path"))
  = (Returned tt,
     {| st_res :=
          {| res_req := Some (request_for "example.com" "/any/path"); statusCode := 200;
             res_headers := {[ "Content-Type" := "text/html; charset=utf-8" ]};
             sent := Some (BodyText site_page) |};
        st_trace := [OpExists "/var/task/example.com/index.html";
                     OpRead "/var/task/example.com/index.html"] |}) /\
  run (V2.handler (request_for "example.com" "/")) directory_site
      (fresh_res (request_for "example.com" "/"))
  = (Returned tt,
     {| st_res := V2.res_text 500 "服务器内部错误，无法读取页面。"
                    (fresh_res (request_for "example.com" "/"));
        st_trace := [OpExists "/var/task/example.com/index.html";
                     OpRead "/var/task/example.com/index.html"] |}) /\
  run (V2.handler (request_for "example.com" "/")) landing_only
      (fresh_res (request_for "example.com" "/"))
  = (Returned tt,
     {| st_res := V2.res_text 404 (V2.msg_no_site "example.com")
                    (fresh_res (request_for "example.com" "/"));
        st_trace := [OpExists "/var/task/example.com/index.html"] |}).
Proof.
  split; [|split].
  - destruct (v2_outcomes (request_for "example.com" "/any/path") one_site
                (fresh_res (request_for "example.com" "/any/path")) "/var/task" eq_refl)
      as (_ & _ & H & _).
    apply (H site_page); reflexivity.
  - destruct (v2_outcomes (request_for "example.com" "/") directory_site
                (fresh_res (request_for "example.com" "/")) "/var/task" eq_refl)
      as (_ & _ & _ & H).
    apply (H eisdir); reflexivity.
  - destruct (v2_outcomes (request_for "example.com" "/") landing_only
                (fresh_res (request_for "example.com" "/")) "/var/task" eq_refl)
      as (_ & H & _).
    apply (proj1 (H eq_refl eq_refl)).
Defined.

(** X15.  The second variant calls [process.cwd()] outside any [try]: when
    it throws, for a host the pattern accepts, the exception leaves the
    handler and the response object is left untouched. *)
Theorem v2_cwd_exception_escapes (req : Request) (w : World) (res : Res) (e : JsError) :
  regex_test true V2.host_pattern (V2.host req) = true ->
  w_cwd w = Thrown e ->
  run (V2.handler req) w res = (Thrown e, {| st_res := res; st_trace := [] |}).
Proof.
  intros Hre Hcwd. unfold run, V2.handler. rewrite Hre.
  destruct (v2_host_pattern_shape _ Hre) as [Hne _].
  assert (Ht : truthy (V2.host req) = true)
    by (unfold truthy; apply negb_true_iff; now apply String.eqb_neq).
  rewrite Ht. cbn [negb orb]. unfold bind, process_cwd. now rewrite Hcwd.
Qed.

Lemma v2_cwd_exception_escapes_witness :
  run (V2.handler (request_for "example.com" "/")) no_cwd
      (fresh_res (request_for "example.com" "/"))
  = (Thrown enoent, {| st_res := fresh_res (request_for "example.com" "/");
                       st_trace := [] |}).
Proof.
  apply (v2_cwd_exception_escapes (request_for "example.com" "/") no_cwd _ enoent);
    reflexivity.
Defined.

Lemma replace_first_absent (c : ascii) (pat s : string) :
  string_forall (fun x => negb (Ascii.eqb x c)) s = true ->
  replace_first_empty (String c pat) s = s.
Proof.
  induction s as [|a s IH]; cbn [string_forall replace_first_empty]; [reflexivity|].
  intros H. apply andb_true_iff in H as [Ha Hs].
  rewrite startsWith_cons, Ascii.eqb_sym.
  apply negb_true_iff in Ha. rewrite Ha. cbn [andb]. now rewrite (IH Hs).
Qed.

(** X16.  The second variant takes the raw host as it is.  Its [replace]
    removes the literal text [^www.], so a raw host without [^] is left
    whole, a leading [www.] included; and since no port is cut off, a host
    candidate with a colon always fails the pattern and gets status 400
    without filesystem call. *)
Theorem v2_host_is_raw_header (req : Request) :
  (includes (js_or (headers req !! "x-forwarded-host")
                   (js_or (headers req !! "host") EmptyString)) "^" = false ->
   V2.host req = js_or (headers req !! "x-forwarded-host")
                       (js_or (headers req !! "host") EmptyString)) /\
  (includes (V2.host req) ":" = true ->
   forall w res,
     run (V2.handler req) w res =
     (Returned tt, {| st_res := V2.res_text 400 "无效的域名请求。" res; st_trace := [] |})).
Proof.
  split.
  - intros H. unfold V2.host. apply replace_first_absent.
    now apply includes_char_false.
  - intros Hcolon w res. unfold run. apply v2_handler_rejected.
    destruct (regex_test true V2.host_pattern (V2.host req)) eqn:Hre;
      [|apply orb_true_r].
    destruct (v2_host_pattern_shape _ Hre) as [_ Hall].
    rewrite (includes_char_forall _ ":" _ Hall) in Hcolon by reflexivity.
    discriminate.
Qed.

Lemma v2_host_is_raw_header_witness :
  V2.host (request_for "www.example.com:8080" "/") = "www.example.com:8080" /\
  run (V2.handler (request_for "www.example.com:8080" "/")) one_site
      (fresh_res (request_for "www.example.com:8080" "/"))
  = (Returned tt,
     {| st_res := V2.res_text 400 "无效的域名请求。"
                    (fresh_res (request_for "www.example.com:8080" "/"));
        st_trace := [] |}).
Proof.
  destruct (v2_host_is_raw_header (request_for "www.example.com:8080" "/")) as [H1 H2].
  split; [apply H1 | apply H2]; reflexivity.
Defined.

Lemma v2_valid_host_plain (h : string) :
  regex_test true V2.host_pattern h = true -> plain_segment h = true.
Proof.
  intros Hre. destruct (v2_host_pattern_shape h Hre) as [_ Hall].
  apply v2_host_pattern_iff in Hre as (c & mid & tld & -> & _ & _ & _ & Hlen).
  unfold plain_segment, no_slash.
  rewrite (string_forall_impl _ _ _ host_char_not_slash Hall).
  assert (Hdot : is_dot (String c (mid +:+ "." +:+ tld)) = false).
  { apply String.eqb_neq. intros E. destruct mid; cbn in E; discriminate. }
  assert (Hdd : is_dotdot (String c (mid +:+ "." +:+ tld)) = false).
  { apply String.eqb_neq. intros E.
    destruct mid as [|m [|m' mid]]; cbn in E; try discriminate.
    injection E as _ E. subst tld. cbn in Hlen. lia. }
  now rewrite Hdot, Hdd.
Qed.

Lemma normalizedPath_canonical (cwd h : string) :
  isAbsolute cwd = true -> plain_segment h = true ->
  V1.normalizedPath cwd h =
  "/" +:+ join_with "/" ((rev (norm_stack false cwd) ++ [h]) ++ ["index.html"]).
Proof.
  intros Habs Hh.
  set (T := rev (norm_stack false cwd)).
  assert (HT : Forall (fun x => plain_segment x = true) T)
    by (apply Forall_rev, norm_stack_plain).
  assert (Hst : norm_stack false cwd = rev T)
    by (unfold T; now rewrite rev_involutive).
  assert (HT' : Forall (fun x => plain_segment x = true) (T ++ [h]))
    by (apply Forall_app; split; [assumption | now constructor]).
  unfold V1.normalizedPath, V1.indexPath, V1.siteDir.
  rewrite (join_plain cwd h T) by assumption.
  rewrite (join_plain _ "index.html" (T ++ [h]));
    [| reflexivity | now apply norm_stack_canonical | assumption | reflexivity].
  apply normalize_canonical.
  - apply Forall_app; split; [assumption | now constructor].
  - now destruct (T ++ [h]).
Qed.

(** X17.  The second variant builds its path with one [join] of three
    parts and has no containment check; for a host its pattern accepts,
    under a well-formed working directory, that path is the one the first
    variant computes, and it starts with the working directory. *)
Theorem v2_path_is_contained (cwd h : string) :
  well_formed_cwd cwd = true ->
  regex_test true V2.host_pattern h = true ->
  V2.filePath cwd h = V1.normalizedPath cwd h /\
  startsWith (V2.filePath cwd h) cwd = true.
Proof.
  intros Hwf Hre. pose proof (v2_valid_host_plain h Hre) as Hplain.
  assert (Habs : isAbsolute cwd = true)
    by (unfold well_formed_cwd in Hwf; now apply andb_true_iff in Hwf as [? _]).
  destruct (plain_segment_facts h Hplain) as (Hne & _ & _).
  assert (E : V2.filePath cwd h = V1.normalizedPath cwd h).
  { rewrite normalizedPath_canonical by assumption.
    unfold V2.filePath, join. cbn [List.filter].
    assert (Hc : truthy cwd = true)
      by (unfold truthy; now rewrite (absolute_nonempty cwd Habs)).
    assert (Hh : truthy h = true)
      by (unfold truthy; apply negb_true_iff; now apply String.eqb_neq).
    rewrite Hc, Hh.
    change (truthy "index.html") with true. cbv iota.
    change (join_with "/" [cwd; h; "index.html"])
      with (cwd +:+ "/" +:+ h +:+ "/" +:+ "index.html").
    replace (cwd +:+ "/" +:+ h +:+ "/" +:+ "index.html")
      with ((cwd +:+ "/" +:+ h) +:+ "/" +:+ "index.html")
      by (now rewrite !append_assoc).
    apply normalize_absolute.
    - apply absolute_app. now apply absolute_app.
    - unfold ends_with_slash.
      change ((cwd +:+ "/" +:+ h) +:+ "/" +:+ "index.html")
        with ((cwd +:+ "/" +:+ h) +:+ String slash "index.html").
      now rewrite last_char_app by discriminate.
    - rewrite !norm_stack_snoc by (assumption || reflexivity).
      now rewrite !rev_unit, rev_involutive.
    - repeat (apply Forall_app; split); try (now constructor).
      apply Forall_rev, norm_stack_plain.
    - now destruct (rev (norm_stack false cwd) ++ [h]). }
  split; [exact E|]. rewrite E. now apply plain_host_contained.
Qed.

Lemma v2_path_is_contained_witness :
  V2.filePath "/var/task" "-.example.com" = V1.normalizedPath "/var/task" "-.example.com" /\
  startsWith (V2.filePath "/var/task" "-.example.com") "/var/task" = true.
Proof. apply v2_path_is_contained; reflexivity. Defined.
